(** * Tabular agents of [code/agent.py]: value iteration and TD learning

    A shallow embedding of [ValueIterationSolver] and [TdLearner] together
    with the fragment of the Python 2 runtime they rely on, followed by the
    properties of the specification that were checked against them.

    Modelling conventions:
    - Python floats are IEEE 754 binary64 numbers: Rocq's primitive [float].
      The integer literal [1] that fills the Q table is the float [1], which
      behaves the same in every arithmetic operation of the module.
    - A statement that may raise returns a [result]; [Raise e] aborts the
      rest of the method, as an uncaught Python exception does.
    - [random.random()] and [random.choice] read from an explicit [rng].
    - The unbounded [while True] loop of [ValueIterationSolver.learn] takes
      a number of sweeps it may still perform (fuel). *)

From Stdlib Require Import ZArith Floats.
From stdpp Require Import base list strings.

Local Open Scope Z_scope.

(** ** Python runtime fragment *)

Module Py.

(** The exceptions that the modelled code can raise. *)
Inductive exn : Set :=
| TypeError
| IndexError
| ValueError
| NotImplementedError.

Inductive result (A : Type) : Type :=
| Ok (a : A)
| Raise (e : exn).
Arguments Ok {A} a.
Arguments Raise {A} e.

Definition bind {A B} (m : result A) (k : A -> result B) : result B :=
  match m with
  | Ok a => k a
  | Raise e => Raise e
  end.

(** The objects a task's [get_allowed_actions] hands back: an integer or a
    sequence of action indices. *)
Inductive pyobj : Set :=
| PyInt (n : Z)
| PySeq (l : list Z).

(** A bound method called with positional integer arguments. *)
Definition pymethod : Type := list Z -> result pyobj.

(** [def m(self, x): return f(x)]: exactly one positional argument. *)
Definition method1 (f : Z -> pyobj) : pymethod :=
  fun args =>
    match args with
    | [x] => Ok (f x)
    | _ => Raise TypeError
    end.

(** [range(n)] as a list: empty when [n <= 0]. *)
Definition range (n : Z) : list Z := seqZ 0 n.

(** [xrange(o)]: an integer is required. *)
Definition xrange (o : pyobj) : result (list Z) :=
  match o with
  | PyInt n => Ok (range n)
  | PySeq _ => Raise TypeError
  end.

(** [len(o)]: an integer has no length. *)
Definition len (o : pyobj) : result nat :=
  match o with
  | PySeq l => Ok (length l)
  | PyInt _ => Raise TypeError
  end.

(** [for x in o]: an integer is not iterable. *)
Definition iter (o : pyobj) : result (list Z) :=
  match o with
  | PySeq l => Ok l
  | PyInt _ => Raise TypeError
  end.

(** Position denoted by the index [i] in a list of length [n]: negative
    indices count from the end. *)
Definition index_pos (n : nat) (i : Z) : option nat :=
  if 0 <=? i then
    if i <? Z.of_nat n then Some (Z.to_nat i) else None
  else
    if 0 <=? i + Z.of_nat n then Some (Z.to_nat (i + Z.of_nat n)) else None.

(** [l[i]] *)
Definition getitem {A} (l : list A) (i : Z) : result A :=
  match index_pos (length l) i with
  | Some n =>
      match l !! n with
      | Some x => Ok x
      | None => Raise IndexError
      end
  | None => Raise IndexError
  end.

(** [l[i] = x] *)
Definition setitem {A} (l : list A) (i : Z) (x : A) : result (list A) :=
  match index_pos (length l) i with
  | Some n => Ok (<[n := x]> l)
  | None => Raise IndexError
  end.

(** [l[i]] where [i] may be [None]: list indices must be integers. *)
Definition getitem_opt {A} (l : list A) (i : option Z) : result A :=
  match i with
  | Some i => getitem l i
  | None => Raise TypeError
  end.

(** [l[i] = x] where [i] may be [None]. *)
Definition setitem_opt {A} (l : list A) (i : option Z) (x : A) : result (list A) :=
  match i with
  | Some i => setitem l i x
  | None => Raise TypeError
  end.

(** The module [random]: [draws n] is the value of the [n]-th next call to
    [random.random()], [picks n] the position that the [n]-th next call to
    [random.choice] selects (reduced modulo the length of its argument). *)
Record rng : Type := {
  draws : nat -> float;
  picks : nat -> nat
}.

Definition random_random (g : rng) : float * rng :=
  (draws g 0%nat, {| draws := fun n => draws g (S n); picks := picks g |}).

Definition random_choice (g : rng) (o : pyobj) : result (Z * rng) :=
  bind (len o) (fun n =>
  match o with
  | PySeq l =>
      match l !! (picks g 0%nat mod n)%nat with
      | Some a => Ok (a, {| draws := draws g; picks := fun n => picks g (S n) |})
      | None => Raise IndexError
      end
  | PyInt _ => Raise TypeError
  end).

End Py.

Import Py.

Notation "x <~ m ;; k" := (bind m (fun x => k))
  (at level 100, m at next level, right associativity, only parsing).

(** ** The environment

    The task (MDP) object that both agents consult.  Only
    [get_allowed_actions] is kept as a dynamically checked method, because
    the agents do not call it the same way everywhere. *)

Module Task.

Record t : Type := {
  get_num_states : Z;
  get_num_actions : Z;
  gamma : float;
  get_allowed_actions : pymethod;
  next_state_distribution : Z -> Z -> list (Z * float);
  get_reward : Z -> Z -> Z -> float
}.

(** A task that follows the documented interface:
    [get_allowed_actions(state)] returns a sequence of action indices. *)
Definition of_mdp (n k : Z) (g : float) (allowed : Z -> list Z)
    (dist : Z -> Z -> list (Z * float)) (reward : Z -> Z -> Z -> float) : t :=
  {| get_num_states := n;
     get_num_actions := k;
     gamma := g;
     get_allowed_actions := method1 (fun s => PySeq (allowed s));
     next_state_distribution := dist;
     get_reward := reward |}.

End Task.

(** ** ValueIterationSolver *)

Module ValueIterationSolver.

Record t : Type := {
  mdp : Task.t;
  num_states : Z;
  gamma : float;
  tol : float;
  V : list float
}.

(** [__init__(self, mdp, tol)] *)
Definition __init__ (mdp : Task.t) (tol : float) : t :=
  {| mdp := mdp;
     num_states := Task.get_num_states mdp;
     gamma := Task.gamma mdp;
     tol := tol;
     V := map (fun _ => 1%float) (range (Task.get_num_states mdp)) |}.

Definition set_V (self : t) (V' : list float) : t :=
  {| mdp := mdp self; num_states := num_states self; gamma := gamma self;
     tol := tol self; V := V' |}.

(** [for ns, prob in ns_dist: val += prob * self.gamma * self.V[ns]] *)
Fixpoint lookahead_loop (self : t) (ns_dist : list (Z * float)) (val : float)
    : result float :=
  match ns_dist with
  | [] => Ok val
  | (ns, prob) :: rest =>
      v <~ getitem (V self) ns ;;
      lookahead_loop self rest (val + prob * gamma self * v)%float
  end.

Definition lookahead (self : t) (state action : Z) : result float :=
  lookahead_loop self (Task.next_state_distribution (mdp self) state action) 0%float.

(** The loop over [poss_actions] of [get_action]. *)
Fixpoint get_action_loop (self : t) (state : Z) (actions : list Z)
    (best_action : option Z) (best_val : float) (g : rng)
    : result (option Z * rng) :=
  match actions with
  | [] => Ok (best_action, g)
  | action :: rest =>
      val <~ lookahead self state action ;;
      if (best_val <? val)%float then
        get_action_loop self state rest (Some action) val g
      else if (val =? best_val)%float then
        let (u, g') := random_random g in
        if (u <? 0.5)%float then
          get_action_loop self state rest (Some action) val g'
        else
          get_action_loop self state rest best_action best_val g'
      else
        get_action_loop self state rest best_action best_val g
  end.

(** [get_action(self, state)]; the result [None] is Python's [None]. *)
Definition get_action (self : t) (state : Z) (g : rng) : result (option Z * rng) :=
  poss_actions <~ Task.get_allowed_actions (mdp self) [state] ;;
  actions <~ iter poss_actions ;;
  get_action_loop self state actions None neg_infinity g.

(** [for ns, prob in ns_dist:
       val += prob * (self.mdp.get_reward(state, action, ns) + self.gamma * self.V[ns])] *)
Fixpoint backup_loop (m : Task.t) (gam : float) (V : list float)
    (state action : Z) (ns_dist : list (Z * float)) (val : float) : result float :=
  match ns_dist with
  | [] => Ok val
  | (ns, prob) :: rest =>
      v <~ getitem V ns ;;
      backup_loop m gam V state action rest
        (val + prob * (Task.get_reward m state action ns + gam * v))%float
  end.

Definition backup (m : Task.t) (gam : float) (V : list float) (state action : Z)
    : result float :=
  backup_loop m gam V state action (Task.next_state_distribution m state action) 0%float.

(** The loop over [poss_actions] of [learn]. *)
Fixpoint best_val_loop (m : Task.t) (gam : float) (V : list float) (state : Z)
    (actions : list Z) (best_val : float) : result float :=
  match actions with
  | [] => Ok best_val
  | action :: rest =>
      val <~ backup m gam V state action ;;
      best_val_loop m gam V state rest
        (if (best_val <? val)%float then val else best_val)
  end.

(** The body of [for state in xrange(self.num_states)], on the value table
    and the running [max_diff]. *)
Definition sweep_state (m : Task.t) (gam : float) (acc : list float * float)
    (state : Z) : result (list float * float) :=
  let (V, max_diff) := acc in
  poss_actions <~ Task.get_allowed_actions m [state] ;;
  n <~ len poss_actions ;;
  V1 <~ (if Nat.eqb n 0 then setitem V state 0%float else Ok V) ;;
  actions <~ iter poss_actions ;;
  best_val <~ best_val_loop m gam V1 state actions neg_infinity ;;
  old <~ getitem V1 state ;;
  let diff := abs (old - best_val)%float in
  V2 <~ setitem V1 state best_val ;;
  Ok (V2, if (max_diff <? diff)%float then diff else max_diff).

Fixpoint sweep_loop (m : Task.t) (gam : float) (states : list Z)
    (acc : list float * float) : result (list float * float) :=
  match states with
  | [] => Ok acc
  | state :: rest =>
      acc' <~ sweep_state m gam acc state ;;
      sweep_loop m gam rest acc'
  end.

(** One iteration of [while True]: the table and [max_diff] after it. *)
Definition sweep (self : t) : result (list float * float) :=
  sweep_loop (mdp self) (gamma self) (range (num_states self)) (V self, 0%float).

(** [learn(self)] allowed [fuel] sweeps: [None] when the loop has not been
    left after that many sweeps. *)
Fixpoint learn (fuel : nat) (self : t) : option (result t) :=
  match fuel with
  | O => None
  | S fuel' =>
      match sweep self with
      | Raise e => Some (Raise e)
      | Ok (V', max_diff) =>
          if (max_diff <? tol self)%float then Some (Ok (set_V self V'))
          else learn fuel' (set_V self V')
      end
  end.

End ValueIterationSolver.

(** ** TdLearner *)

Module TdLearner.

Record t : Type := {
  task : Task.t;
  num_states : Z;
  num_actions : Z;
  gamma : float;
  epsilon : float;
  alpha : float;
  update : string;
  Q : list (list float);
  s0 : option Z;
  a0 : option Z;
  r : option float;
  s1 : option Z;
  a1 : option Z
}.

(** [update in ['q_learning', 'sarsa']] *)
Definition supported (update : string) : bool :=
  bool_decide (update = "q_learning") || bool_decide (update = "sarsa").

(** [[[1 for a in xrange(task.get_allowed_actions(s))] for s in states]] *)
Fixpoint build_Q (task : Task.t) (states : list Z) : result (list (list float)) :=
  match states with
  | [] => Ok []
  | s :: rest =>
      n <~ Task.get_allowed_actions task [s] ;;
      actions <~ xrange n ;;
      rows <~ build_Q task rest ;;
      Ok (map (fun _ => 1%float) actions :: rows)
  end.

(** [__init__(self, task, update, epsilon, alpha)] *)
Definition __init__ (task : Task.t) (update : string) (epsilon alpha : float)
    : result t :=
  if negb (supported update) then Raise NotImplementedError
  else
    Q <~ build_Q task (range (Task.get_num_states task)) ;;
    Ok {| task := task;
          num_states := Task.get_num_states task;
          num_actions := Task.get_num_actions task;
          gamma := Task.gamma task;
          epsilon := epsilon;
          alpha := alpha;
          update := update;
          Q := Q;
          s0 := None; a0 := None; r := None; s1 := None; a1 := None |}.

Definition set_Q (self : t) (Q' : list (list float)) : t :=
  {| task := task self; num_states := num_states self;
     num_actions := num_actions self; gamma := gamma self;
     epsilon := epsilon self; alpha := alpha self; update := update self;
     Q := Q';
     s0 := s0 self; a0 := a0 self; r := r self; s1 := s1 self; a1 := a1 self |}.

Definition set_r (self : t) (reward : option float) : t :=
  {| task := task self; num_states := num_states self;
     num_actions := num_actions self; gamma := gamma self;
     epsilon := epsilon self; alpha := alpha self; update := update self;
     Q := Q self;
     s0 := s0 self; a0 := a0 self; r := reward; s1 := s1 self; a1 := a1 self |}.

(** [self.s0 = self.s1; self.a0 = self.a1; self.s1 = state; self.a1 = action] *)
Definition shift (self : t) (state action : Z) : t :=
  {| task := task self; num_states := num_states self;
     num_actions := num_actions self; gamma := gamma self;
     epsilon := epsilon self; alpha := alpha self; update := update self;
     Q := Q self;
     s0 := s1 self; a0 := a1 self; r := r self;
     s1 := Some state; a1 := Some action |}.

(** [max(q_vals)]: the first item, replaced by each later item that
    compares greater. *)
Definition max (q_vals : list float) : result float :=
  match q_vals with
  | [] => Raise ValueError
  | x :: rest => Ok (fold_left (fun m y => if (m <? y)%float then y else m) rest x)
  end.

(** The test of [list.index]: the same object, or an equal one.  The
    argument is the element that [max] returned, and two NaN stand for the
    same object: [max] returns NaN only when it is the first element. *)
Definition same_or_equal (y x : float) : bool :=
  (y =? x)%float || (is_nan y && is_nan x).

(** [q_vals.index(x)] *)
Fixpoint index (q_vals : list float) (x : float) : result Z :=
  match q_vals with
  | [] => Raise ValueError
  | y :: rest =>
      if same_or_equal y x then Ok 0
      else i <~ index rest x ;; Ok (i + 1)
  end.

(** [_greedy_action(self, state)] *)
Definition _greedy_action (self : t) (state : option Z) : result Z :=
  q_vals <~ getitem_opt (Q self) state ;;
  m <~ max q_vals ;;
  index q_vals m.

(** [get_action(self, state)] *)
Definition get_action (self : t) (state : Z) (g : rng) : result (Z * t * rng) :=
  poss_actions <~ Task.get_allowed_actions (task self) [] ;;
  let (u, g1) := random_random g in
  ag <~ (if (u <? epsilon self)%float then random_choice g1 poss_actions
         else a <~ _greedy_action self (Some state) ;; Ok (a, g1)) ;;
  Ok (fst ag, shift self state (fst ag), snd ag).

(** [Q[s][a]] *)
Definition Q_get (Q : list (list float)) (s a : option Z) : result float :=
  row <~ getitem_opt Q s ;;
  getitem_opt row a.

(** [Q[s][a] = x]: the row [Q[s]] is fetched and updated in place.  The
    rows built by [__init__] are distinct lists, so no other row changes. *)
Definition Q_set (Q : list (list float)) (s a : option Z) (x : float)
    : result (list (list float)) :=
  row <~ getitem_opt Q s ;;
  row' <~ setitem_opt row a x ;;
  setitem_opt Q s row'.

(** [_td_update(self, s0, a0, r, s1, a1)].  In
    [r + self.gamma * self.Q[s1][a1] - self.Q[s0][a0]] the product is
    evaluated before the sum: a missing reward raises after [Q[s1][a1]]
    was read.  Every exception is raised before the table is written. *)
Definition _td_update (self : t) (s0 a0 : option Z) (r : option float)
    (s1 a1 : option Z) : result t :=
  q1 <~ Q_get (Q self) s1 a1 ;;
  r <~ match r with Some x => Ok x | None => Raise TypeError end ;;
  q0 <~ Q_get (Q self) s0 a0 ;;
  let td_error := (r + gamma self * q1 - q0)%float in
  q0' <~ Q_get (Q self) s0 a0 ;;
  Q' <~ Q_set (Q self) s0 a0 (q0' + alpha self * td_error)%float ;;
  Ok (set_Q self Q').

(** The bootstrap target chosen by [learn]:
    [if self.update == 'q_learning': next_action = self._greedy_action(self.s1)
     elif self.update == 'sarsa': next_action = self.a1
     else: raise NotImplementedError()] *)
Definition next_action (self : t) : result (option Z) :=
  if bool_decide (update self = "q_learning") then
    a <~ _greedy_action self (s1 self) ;; Ok (Some a)
  else if bool_decide (update self = "sarsa") then Ok (a1 self)
  else Raise NotImplementedError.

(** [learn(self, reward)].  An exception leaves the learner as it was. *)
Definition learn (self : t) (reward : float) : result t :=
  match s0 self with
  | Some _ =>
      a <~ next_action self ;;
      self' <~ _td_update self (s0 self) (a0 self) (r self) (s1 self) a ;;
      Ok (set_r self' (Some reward))
  | None => Ok (set_r self (Some reward))
  end.

(** The driver's calls [get_action(x0); learn(r0); get_action(x1); learn(r1)]:
    the two actions returned and the learner afterwards. *)
Definition two_steps (self : t) (x0 : Z) (r0 : float) (x1 : Z) (r1 : float) (g : rng)
    : result (Z * Z * t) :=
  c0 <~ get_action self x0 g ;;
  self2 <~ learn (snd (fst c0)) r0 ;;
  c1 <~ get_action self2 x1 (snd c0) ;;
  self4 <~ learn (snd (fst c1)) r1 ;;
  Ok (fst (fst c0), fst (fst c1), self4).

(** A learner whose streaming buffer is empty, as [__init__] leaves it. *)
Definition fresh (self : t) : Prop :=
  s0 self = None /\ a0 self = None /\ r self = None /\
  s1 self = None /\ a1 self = None.

(** [target] is the bootstrap target of the specification: the greedy
    action at the current state under [q_learning], the action already
    chosen for it under [sarsa]. *)
Definition is_target (self : t) (target : option Z) : Prop :=
  (update self = "q_learning" /\
   exists a, _greedy_action self (s1 self) = Ok a /\ target = Some a) \/
  (update self = "sarsa" /\ target = a1 self).

(** The entry at row position [i] and column position [j] of a table. *)
Definition entry (Q : list (list float)) (i j : nat) : option float :=
  match Q !! i with
  | Some row => row !! j
  | None => None
  end.

(** The fields that neither [Q] nor [r] hold. *)
Definition same_setup (self self' : t) : Prop :=
  task self' = task self /\ num_states self' = num_states self /\
  num_actions self' = num_actions self /\ gamma self' = gamma self /\
  epsilon self' = epsilon self /\ alpha self' = alpha self /\
  update self' = update self.

Definition same_buffer (self self' : t) : Prop :=
  s0 self' = s0 self /\ a0 self' = a0 self /\
  s1 self' = s1 self /\ a1 self' = a1 self.

End TdLearner.

(** ** Concrete tasks used as examples *)

Module Examples.

(** The two-state MDP of the specification: state 0 has the single action 0
    that leads to state 1 with probability 1 and reward 1; state 1 has no
    action.  [gamma = 0.9]. *)
Definition two_state : Task.t :=
  Task.of_mdp 2 1 0x1.ccccccccccccdp-1%float
    (fun s => if s =? 0 then [0] else [])
    (fun _ _ => [(1, 1%float)])
    (fun _ _ _ => 1%float).

(** [tol = 1e-3] *)
Definition tol : float := 0x1.0624dd2f1a9fcp-10%float.

Definition solver : ValueIterationSolver.t := ValueIterationSolver.__init__ two_state tol.

(** A task whose [get_allowed_actions(self, state=None)] returns the
    sequence [[0, 1]] whatever the state. *)
Definition lenient : Task.t :=
  {| Task.get_num_states := 2;
     Task.get_num_actions := 2;
     Task.gamma := 0.5%float;
     Task.get_allowed_actions := fun _ => Ok (PySeq [0; 1]);
     Task.next_state_distribution := fun _ _ => [];
     Task.get_reward := fun _ _ _ => 0%float |}.

(** A learner over [task] with a 2x2 table of ones and an empty buffer. *)
Definition learner (task : Task.t) (update : string) : TdLearner.t :=
  {| TdLearner.task := task;
     TdLearner.num_states := 2;
     TdLearner.num_actions := 2;
     TdLearner.gamma := 0.5%float;
     TdLearner.epsilon := 0.125%float;
     TdLearner.alpha := 0.5%float;
     TdLearner.update := update;
     TdLearner.Q := [[1%float; 1%float]; [1%float; 1%float]];
     TdLearner.s0 := None; TdLearner.a0 := None; TdLearner.r := None;
     TdLearner.s1 := None; TdLearner.a1 := None |}.

(** The learner [learner task update] after [get_action(0)] returned 0,
    [learn(2)], and [get_action(1)] returned 0. *)
Definition learner_mid (task : Task.t) (update : string) : TdLearner.t :=
  TdLearner.shift
    (TdLearner.set_r (TdLearner.shift (learner task update) 0 0) (Some 2%float)) 1 0.

(** [random.random()] always returns 0.5; [random.choice] the first item. *)
Definition rng0 : rng := {| draws := fun _ => 0.5%float; picks := fun _ => 0%nat |}.

(** The two-state MDP with every reward replaced by 100. *)
Definition two_state_rich : Task.t :=
  Task.of_mdp 2 1 0x1.ccccccccccccdp-1%float
    (fun s => if s =? 0 then [0] else [])
    (fun _ _ => [(1, 1%float)])
    (fun _ _ _ => 100%float).

(** The solver of the two-state MDP with the table [[-inf, -inf]]. *)
Definition solver_low : ValueIterationSolver.t :=
  ValueIterationSolver.set_V solver [neg_infinity; neg_infinity].

(** The solver of the two-state MDP with [tol = 0]. *)
Definition solver_tol0 : ValueIterationSolver.t :=
  ValueIterationSolver.__init__ two_state 0%float.

(** A solver over a task without states. *)
Definition solver_empty : ValueIterationSolver.t :=
  ValueIterationSolver.__init__
    (Task.of_mdp 0 0 0.5%float (fun _ => []) (fun _ _ => []) (fun _ _ _ => 0%float)) tol.

(** A task whose [get_allowed_actions(self, state)] returns the number of
    actions, 2, instead of the actions. *)
Definition counting : Task.t :=
  {| Task.get_num_states := 2;
     Task.get_num_actions := 2;
     Task.gamma := 0.5%float;
     Task.get_allowed_actions := method1 (fun _ => PyInt 2);
     Task.next_state_distribution := fun _ _ => [];
     Task.get_reward := fun _ _ _ => 0%float |}.

(** The learner [learner task update] after [get_action(0)] returned 0 and
    [get_action(1)] returned 0, with no [learn] in between. *)
Definition learner_unpaid (task : Task.t) (update : string) : TdLearner.t :=
  TdLearner.shift (TdLearner.shift (learner task update) 0 0) 1 0.

(** A learner whose row for state 0 is [[1, 3, 3, 2]]. *)
Definition learner_rows : TdLearner.t :=
  TdLearner.set_Q (learner lenient "q_learning")
    [[1%float; 3%float; 3%float; 2%float]; []].

(** The one-state MDP whose only action loops on state 0 with reward 0;
    [gamma = 0.5]. *)
Definition self_loop : Task.t :=
  Task.of_mdp 1 1 0.5%float (fun _ => [0]) (fun _ _ => [(0, 1%float)])
    (fun _ _ _ => 0%float).

Definition solver_loop : ValueIterationSolver.t :=
  ValueIterationSolver.__init__ self_loop tol.

(** A three-state MDP in which state 0 has four actions: action 0 leads to
    state 1, actions 1 and 3 lead to state 2, action 2 leads to state 1 or
    to state 2 with probability one half each; states 1 and 2 loop.
    [gamma = 0.5]. *)
Definition fork : Task.t :=
  Task.of_mdp 3 4 0.5%float
    (fun s => if s =? 0 then [0; 1; 2; 3] else [0])
    (fun s a =>
       if s =? 0 then
         if a =? 0 then [(1, 1%float)]
         else if a =? 2 then [(1, 0.5%float); (2, 0.5%float)]
         else [(2, 1%float)]
       else [(s, 1%float)])
    (fun _ _ _ => 0%float).

(** A solver over [fork] with the table [[0, 1, 3]]: the lookahead values of
    the actions of state 0 are 0.5, 1.5, 1 and 1.5. *)
Definition solver_fork : ValueIterationSolver.t :=
  ValueIterationSolver.set_V (ValueIterationSolver.__init__ fork tol)
    [0%float; 1%float; 3%float].

(** [random.random()] always returns 0.25. *)
Definition rng_quarter : rng :=
  {| draws := fun _ => 0.25%float; picks := fun _ => 0%nat |}.

(** A task whose [get_allowed_actions(self, state=None)] returns the
    actions [[0, 1]] when called without state and their number with one. *)
Definition flexible : Task.t :=
  {| Task.get_num_states := 2;
     Task.get_num_actions := 2;
     Task.gamma := 0.5%float;
     Task.get_allowed_actions :=
       fun args => match args with [] => Ok (PySeq [0; 1]) | _ => Ok (PyInt 2) end;
     Task.next_state_distribution := fun _ _ => [];
     Task.get_reward := fun _ _ _ => 0%float |}.

(** A learner over [flexible] in the middle of an episode: the table is
    [[[1, 1], [1, 3]]], the previous state and action are 0 and 0, the
    stored reward is 2, the current state and action are 1 and 0 (the
    greedy action at state 1 is 1). *)
Definition learner_skewed (update : string) : TdLearner.t :=
  {| TdLearner.task := flexible;
     TdLearner.num_states := 2;
     TdLearner.num_actions := 2;
     TdLearner.gamma := 0.5%float;
     TdLearner.epsilon := 0.125%float;
     TdLearner.alpha := 0.5%float;
     TdLearner.update := update;
     TdLearner.Q := [[1%float; 1%float]; [1%float; 3%float]];
     TdLearner.s0 := Some 0; TdLearner.a0 := Some 0; TdLearner.r := Some 2%float;
     TdLearner.s1 := Some 1; TdLearner.a1 := Some 0 |}.

End Examples.

(** ** Predicates used in the proofs *)

(** [x] is a number (not NaN). *)
Definition is_number (x : float) : Prop := (x =? x)%float = true.

(** What the loop of [ValueIterationSolver.get_action] maintains over the
    actions [seen] so far: no lookahead value compares greater than
    [best_val], and [best_val] is the lookahead value of [best_action]. *)
Definition greedy_inv (self : ValueIterationSolver.t) (state : Z) (seen : list Z)
    (best_action : option Z) (best_val : float) : Prop :=
  (forall b, b ∈ seen ->
     exists vb, ValueIterationSolver.lookahead self state b = Ok vb /\
                (best_val <? vb)%float = false) /\
  (forall a, best_action = Some a ->
     a ∈ seen /\ ValueIterationSolver.lookahead self state a = Ok best_val).

(** ** The quantities of the specification, written out *)

(** [V[ns]] for an index that denotes a position of the table. *)
Definition item (V : list float) (ns : Z) : float :=
  match getitem V ns with
  | Ok v => v
  | Raise _ => nan
  end.

(** The one-step lookahead value of an action: the sum over the pairs
    [(ns, prob)] of its next-state distribution of [prob * gamma * V[ns]],
    accumulated from [0.] in the order of the distribution. *)
Definition lookahead_sum (self : ValueIterationSolver.t) (state action : Z) : float :=
  fold_left
    (fun acc p =>
       (acc + snd p * ValueIterationSolver.gamma self
                * item (ValueIterationSolver.V self) (fst p))%float)
    (Task.next_state_distribution (ValueIterationSolver.mdp self) state action)
    0%float.

(** [target] is the argmax of the row [Q[s]] with the first index on a tie,
    and [q] the value it holds: no value of the row compares above [q], and
    no earlier position holds an equal value. *)
Definition greedy_at (Q : list (list float)) (s target : option Z) (q : float) : Prop :=
  exists row i,
    getitem_opt Q s = Ok row /\
    target = Some (Z.of_nat i) /\
    row !! i = Some q /\
    (forall y, y ∈ row -> (q <? y)%float = false) /\
    (forall k w, (k < i)%nat -> row !! k = Some w -> (w =? q)%float = false).

(** The bootstrap target of the specification and the value [q1] it reads:
    the greedy action at the current state [s1] for [q_learning], the
    action [a1] already chosen for it for [sarsa]. *)
Definition bootstrap_target (update : string) (Q : list (list float))
    (s1 a1 target : option Z) (q1 : float) : Prop :=
  (update = "q_learning" /\ greedy_at Q s1 target q1) \/
  (update = "sarsa" /\ target = a1 /\ TdLearner.Q_get Q s1 a1 = Ok q1).

(** The TD backup of the specification:
    [Q[s0][a0] + alpha * (r + gamma * Q[s1][a1_target] - Q[s0][a0])]. *)
Definition td_backup (alpha gamma q0 r q1 : float) : float :=
  (q0 + alpha * (r + gamma * q1 - q0))%float.

(** The table [Q] with the entry at row position [i] and column position
    [j] replaced by [x]. *)
Definition with_entry (Q : list (list float)) (i j : nat) (x : float)
    : list (list float) :=
  match Q !! i with
  | Some row => <[i := <[j := x]> row]> Q
  | None => Q
  end.

(** ** Facts on binary64 comparisons *)

Section Float_order.

Ltac cmp_cases :=
  repeat match goal with
  | |- context [Z.compare ?a ?b] => destruct (Z.compare_spec a b); subst
  | |- context [Pos.compare_cont Eq ?a ?b] =>
      change (Pos.compare_cont Eq a b) with (Pos.compare a b);
      destruct (Pos.compare_spec a b); subst
  end.

Ltac by_cases x y z :=
  destruct x as [[]|[]| |[] ? ?], y as [[]|[]| |[] ? ?]; cbn; try discriminate;
  destruct z as [[]|[]| |[] ? ?]; cbn; try discriminate; try reflexivity;
  cmp_cases; cbn; try discriminate; try reflexivity; intros; try lia.

Lemma SFltb_irrefl x : SFltb x x = false.
Proof.
  destruct x as [[]|[]| |[] m e]; cbn; try reflexivity;
    rewrite Z.compare_refl, Pos.compare_cont_refl; reflexivity.
Qed.

Lemma SFltb_trans x y z : SFltb x y = true -> SFltb y z = true -> SFltb x z = true.
Proof. unfold SFltb. by_cases x y z. Qed.

Lemma SFeqb_ltb x y z : SFeqb x y = true -> SFltb y z = false -> SFltb x z = false.
Proof. unfold SFltb, SFeqb. by_cases x y z. Qed.

Lemma ltb_irrefl (x : float) : (x <? x)%float = false.
Proof. rewrite FloatAxioms.ltb_spec. apply SFltb_irrefl. Qed.

Lemma ltb_trans (x y z : float) :
  (x <? y)%float = true -> (y <? z)%float = true -> (x <? z)%float = true.
Proof. rewrite !FloatAxioms.ltb_spec. apply SFltb_trans. Qed.

(** A value equal to a bound is a bound. *)
Lemma eqb_not_ltb (x y z : float) :
  (x =? y)%float = true -> (y <? z)%float = false -> (x <? z)%float = false.
Proof. rewrite FloatAxioms.eqb_spec, !FloatAxioms.ltb_spec. apply SFeqb_ltb. Qed.

(** A value above a bound is a bound. *)
Lemma ltb_not_ltb (x y z : float) :
  (y <? x)%float = true -> (y <? z)%float = false -> (x <? z)%float = false.
Proof.
  intros Hyx Hyz. destruct (x <? z)%float eqn:Hxz; [|reflexivity].
  rewrite (ltb_trans _ _ _ Hyx Hxz) in Hyz. discriminate.
Qed.

(** Nothing compares greater than [infinity]. *)
Lemma infinity_not_ltb (x : float) : (infinity <? x)%float = false.
Proof.
  rewrite FloatAxioms.ltb_spec. change (Prim2SF infinity) with (S754_infinity false).
  destruct (Prim2SF x) as [[]|[]| |[] ? ?]; reflexivity.
Qed.

(** The right operand of a comparison that holds is a number. *)
Lemma ltb_is_number (x y : float) : (x <? y)%float = true -> (y =? y)%float = true.
Proof.
  rewrite FloatAxioms.ltb_spec, FloatAxioms.eqb_spec. unfold SFltb, SFeqb.
  destruct (Prim2SF y) as [[]|[]| |[] m e].
  5: destruct (Prim2SF x) as [[]|[]| |[] ? ?]; discriminate.
  all: intros _; cbn; try reflexivity.
  all: rewrite Z.compare_refl, Pos.compare_cont_refl; reflexivity.
Qed.

(** A number that is not below [infinity] is [infinity]. *)
Lemma not_ltb_infinity (x : float) :
  (x =? x)%float = true -> (x <? infinity)%float = false -> x = infinity.
Proof.
  rewrite FloatAxioms.ltb_spec, FloatAxioms.eqb_spec. change (Prim2SF infinity) with (S754_infinity false).
  intros Hnum Hlt. apply Prim2SF_inj.
  change (Prim2SF infinity) with (S754_infinity false).
  destruct (Prim2SF x) as [[]|[]| |[] ? ?]; cbn in *; try discriminate; reflexivity.
Qed.

End Float_order.

(** ** Facts on the runtime fragment *)

Section Runtime.

Context {A B : Type}.

Lemma bind_Ok (m : result A) (k : A -> result B) (b : B) :
  bind m k = Ok b -> exists a, m = Ok a /\ k a = Ok b.
Proof. destruct m as [a|e]; cbn; [eauto | discriminate]. Qed.

Lemma index_pos_nonneg (n : nat) (i : Z) (k : nat) :
  0 <= i -> index_pos n i = Some k -> k = Z.to_nat i /\ (k < n)%nat.
Proof.
  unfold index_pos. intros Hi.
  destruct (Z.leb_spec 0 i); [|lia].
  destruct (Z.ltb_spec i (Z.of_nat n)); [|discriminate].
  intros [= <-]. lia.
Qed.

Lemma getitem_Ok (l : list A) (i : Z) (x : A) :
  getitem l i = Ok x ->
  exists k, index_pos (length l) i = Some k /\ l !! k = Some x.
Proof.
  unfold getitem. destruct (index_pos (length l) i) as [k|]; [|discriminate].
  destruct (l !! k) as [y|] eqn:Hk; [|discriminate].
  intros [= <-]. eauto.
Qed.

Lemma setitem_Ok (l : list A) (i : Z) (x : A) (l' : list A) :
  setitem l i x = Ok l' ->
  exists k, index_pos (length l) i = Some k /\ l' = <[k := x]> l.
Proof.
  unfold setitem. destruct (index_pos (length l) i) as [k|]; [|discriminate].
  intros [= <-]. eauto.
Qed.

End Runtime.

Ltac inv_bind H :=
  let x := fresh "x" in
  let E := fresh "E" in
  apply bind_Ok in H as (x & E & H).

(** ** ValueIterationSolver.get_action *)

Section Solver_get_action.

Import ValueIterationSolver.

Variables (self : ValueIterationSolver.t) (state : Z).

Lemma greedy_inv_replace seen action val best_action best_val :
  greedy_inv self state seen best_action best_val ->
  lookahead self state action = Ok val ->
  (best_val <? val)%float = true \/ (val =? best_val)%float = true ->
  greedy_inv self state (seen ++ [action]) (Some action) val.
Proof.
  intros [Hmax _] Hval Hcmp. split.
  - intros b [Hb | ->%list_elem_of_singleton]%elem_of_app.
    + destruct (Hmax b Hb) as (vb & Hvb & Hle). exists vb. split; [exact Hvb|].
      destruct Hcmp as [Hlt | Heq].
      * exact (ltb_not_ltb _ _ _ Hlt Hle).
      * exact (eqb_not_ltb _ _ _ Heq Hle).
    + exists val. split; [exact Hval | apply ltb_irrefl].
  - intros a [= <-]. split; [|exact Hval].
    apply elem_of_app. right. apply list_elem_of_singleton. reflexivity.
Qed.

Lemma greedy_inv_keep seen action val best_action best_val :
  greedy_inv self state seen best_action best_val ->
  lookahead self state action = Ok val ->
  (best_val <? val)%float = false ->
  greedy_inv self state (seen ++ [action]) best_action best_val.
Proof.
  intros [Hmax Hbest] Hval Hle. split.
  - intros b [Hb | ->%list_elem_of_singleton]%elem_of_app; [auto|].
    exists val. auto.
  - intros a Ha. destruct (Hbest a Ha) as [Hin Hv]. split; [|exact Hv].
    apply elem_of_app. left. exact Hin.
Qed.

Lemma get_action_loop_inv actions :
  forall seen best_action best_val g res g',
    greedy_inv self state seen best_action best_val ->
    get_action_loop self state actions best_action best_val g = Ok (res, g') ->
    exists bv, greedy_inv self state (seen ++ actions) res bv.
Proof.
  induction actions as [|action rest IH]; intros seen best_action best_val g res g' Hinv Hrun.
  - cbn in Hrun. injection Hrun as <- <-. exists best_val. rewrite app_nil_r. exact Hinv.
  - cbn [get_action_loop] in Hrun. inv_bind Hrun. rename x into val.
    rewrite (cons_middle action seen rest), app_assoc.
    destruct (best_val <? val)%float eqn:Hlt.
    { eapply IH; [|exact Hrun]. eapply greedy_inv_replace; eauto. }
    destruct (val =? best_val)%float eqn:Heq.
    + destruct (random_random g) as [u g1].
      destruct (u <? 0.5)%float.
      * eapply IH; [|exact Hrun]. eapply greedy_inv_replace; eauto.
      * eapply IH; [|exact Hrun]. eapply greedy_inv_keep; eauto.
    + eapply IH; [|exact Hrun]. eapply greedy_inv_keep; eauto.
Qed.

End Solver_get_action.

Section Solver_claims.

Import ValueIterationSolver.

(** The value that [lookahead] returns is the sum of the specification,
    and every [V[ns]] it needs could be read. *)
Lemma lookahead_loop_sum (self : ValueIterationSolver.t) (ns_dist : list (Z * float)) :
  forall val v,
    lookahead_loop self ns_dist val = Ok v ->
    v = fold_left (fun acc p => (acc + snd p * gamma self * item (V self) (fst p))%float)
          ns_dist val /\
    forall p, p ∈ ns_dist -> exists x, getitem (V self) (fst p) = Ok x.
Proof.
  induction ns_dist as [|[ns prob] rest IH]; intros val v Hrun.
  - injection Hrun as <-. split; [reflexivity|]. intros p Hp. inversion Hp.
  - cbn [lookahead_loop] in Hrun. inv_bind Hrun.
    destruct (IH _ _ Hrun) as [-> Hread].
    assert (Hx : item (V self) ns = x) by (unfold item; rewrite E; reflexivity).
    split.
    + cbn [fold_left fst snd]. rewrite Hx. reflexivity.
    + intros p [-> | Hp]%elem_of_cons; [eauto | auto].
Qed.

Lemma lookahead_Ok (self : ValueIterationSolver.t) (state action : Z) (v : float) :
  lookahead self state action = Ok v ->
  v = lookahead_sum self state action /\
  forall p, p ∈ Task.next_state_distribution (mdp self) state action ->
    exists x, getitem (V self) (fst p) = Ok x.
Proof. apply lookahead_loop_sum. Qed.

(** C8. Whatever the value table and the coin flips, an action returned by
    [ValueIterationSolver.get_action] is one of the allowed actions of the
    state, every [V[ns]] of every allowed action could be read, and no
    allowed action has a one-step lookahead value, the sum over its next
    states of [prob * gamma * V[ns]], that compares strictly greater than
    the lookahead value of the returned action. *)
Theorem get_action_greedy (self : ValueIterationSolver.t) (state : Z) (g g' : rng) (a : Z) :
  get_action self state g = Ok (Some a, g') ->
  exists actions,
    Task.get_allowed_actions (mdp self) [state] = Ok (PySeq actions) /\
    a ∈ actions /\
    forall b, b ∈ actions ->
      (forall p, p ∈ Task.next_state_distribution (mdp self) state b ->
         exists x, getitem (V self) (fst p) = Ok x) /\
      lookahead self state b = Ok (lookahead_sum self state b) /\
      (lookahead_sum self state a <? lookahead_sum self state b)%float = false.
Proof.
  unfold get_action. intros Hrun.
  inv_bind Hrun. rename x into poss_actions.
  inv_bind Hrun. rename x into actions.
  destruct poss_actions as [n|l]; [discriminate|]. injection E0 as ->.
  assert (Hinit : greedy_inv self state [] None neg_infinity).
  { split; [intros b Hb; inversion Hb | discriminate]. }
  destruct (get_action_loop_inv self state actions [] None neg_infinity g (Some a) g' Hinit Hrun)
    as (bv & Hmax & Hbest).
  cbn [app] in Hmax, Hbest.
  destruct (Hbest a eq_refl) as [Hin Hva].
  apply lookahead_Ok in Hva as [-> _].
  exists actions. split; [exact E|]. split; [exact Hin|].
  intros b Hb. destruct (Hmax b Hb) as (vb & Hvb & Hle).
  destruct (lookahead_Ok _ _ _ _ Hvb) as [-> Hread].
  auto.
Qed.

(** State 0 of [fork]: actions 1 and 3 tie at 1.5, above actions 0 and 2;
    the draw 0.25 makes the later one, 3, the action returned. *)
Lemma get_action_greedy_witness :
  exists g',
    get_action Examples.solver_fork 0 Examples.rng_quarter = Ok (Some 3, g') /\
    exists actions,
      Task.get_allowed_actions Examples.fork [0] = Ok (PySeq actions) /\
      3 ∈ actions /\
      forall b, b ∈ actions ->
        (forall p, p ∈ Task.next_state_distribution Examples.fork 0 b ->
           exists x, getitem [0; 1; 3]%float (fst p) = Ok x) /\
        lookahead Examples.solver_fork 0 b = Ok (lookahead_sum Examples.solver_fork 0 b) /\
        (lookahead_sum Examples.solver_fork 0 3
           <? lookahead_sum Examples.solver_fork 0 b)%float = false.
Proof.
  eexists. split; [vm_compute; reflexivity|].
  eapply (get_action_greedy Examples.solver_fork 0 Examples.rng_quarter).
  vm_compute. reflexivity.
Defined.

(** The lookahead values of the four actions of state 0 of [fork], and the
    action returned for each outcome of the coin flip of the tie. *)
Example lookahead_sum_fork :
  map (lookahead_sum Examples.solver_fork 0) [0; 1; 2; 3]
  = [0.5; 1.5; 1; 1.5]%float.
Proof. vm_compute. reflexivity. Qed.

Example get_action_fork_tie :
  bind (get_action Examples.solver_fork 0 Examples.rng_quarter) (fun c => Ok (fst c))
  = Ok (Some 3) /\
  bind (get_action Examples.solver_fork 0 Examples.rng0) (fun c => Ok (fst c))
  = Ok (Some 1).
Proof. split; vm_compute; reflexivity. Qed.

(** C5 (as the code behaves). On a state whose allowed-action sequence is
    empty, [ValueIterationSolver.get_action] raises nothing: it returns
    [None], the initial value of [best_action], and draws no random number. *)
Theorem get_action_terminal_returns_None (self : ValueIterationSolver.t) (state : Z) (g : rng) :
  Task.get_allowed_actions (mdp self) [state] = Ok (PySeq []) ->
  get_action self state g = Ok (None, g).
Proof. unfold get_action. intros ->. reflexivity. Qed.

Lemma get_action_terminal_returns_None_witness :
  Task.get_allowed_actions (mdp Examples.solver) [1] = Ok (PySeq []) /\
  get_action Examples.solver 1 Examples.rng0 = Ok (None, Examples.rng0).
Proof.
  split; [reflexivity|].
  apply (get_action_terminal_returns_None Examples.solver 1 Examples.rng0).
  reflexivity.
Defined.

(** C5 (as stated) fails: state 1 of the two-state MDP has no allowed
    action, and [get_action] returns normally there. *)
Lemma get_action_terminal_no_error :
  Task.get_allowed_actions (mdp Examples.solver) [1] = Ok (PySeq []) /\
  (forall e, get_action Examples.solver 1 Examples.rng0 <> Raise e) /\
  get_action Examples.solver 1 Examples.rng0 = Ok (None, Examples.rng0).
Proof. repeat split. intros e. vm_compute. discriminate. Qed.

End Solver_claims.

(** ** ValueIterationSolver.learn *)

Section Solver_sweep.

Import ValueIterationSolver.

Variables (m : Task.t) (gam : float).

Lemma max_diff_update (max_diff diff : float) :
  let max_diff' := if (max_diff <? diff)%float then diff else max_diff in
  (is_number max_diff -> is_number max_diff') /\
  (max_diff = infinity -> max_diff' = infinity).
Proof.
  cbn. destruct (max_diff <? diff)%float eqn:Hlt; split; auto.
  - intros _. exact (ltb_is_number _ _ Hlt).
  - intros ->. rewrite infinity_not_ltb in Hlt. discriminate.
Qed.

(** A state only writes its own entry of the table. *)
Lemma sweep_state_frame (V : list float) (max_diff : float) (t : Z)
    (V' : list float) (max_diff' : float) :
  0 <= t ->
  sweep_state m gam (V, max_diff) t = Ok (V', max_diff') ->
  (forall k, k <> Z.to_nat t -> V' !! k = V !! k) /\
  (is_number max_diff -> is_number max_diff') /\
  (max_diff = infinity -> max_diff' = infinity).
Proof.
  intros Ht Hrun. unfold sweep_state in Hrun.
  inv_bind Hrun. rename x into poss_actions.
  inv_bind Hrun. rename x into n.
  inv_bind Hrun. rename x into V1.
  inv_bind Hrun. rename x into actions.
  inv_bind Hrun. rename x into best_val.
  inv_bind Hrun. rename x into old.
  inv_bind Hrun. rename x into V2.
  injection Hrun as <- <-.
  split; [|apply max_diff_update].
  intros k Hk.
  apply setitem_Ok in E5 as (k2 & Hk2 & ->).
  apply index_pos_nonneg in Hk2 as [-> _]; [|exact Ht].
  rewrite list_lookup_insert_ne by congruence.
  destruct (Nat.eqb n 0).
  - apply setitem_Ok in E1 as (k1 & Hk1 & ->).
    apply index_pos_nonneg in Hk1 as [-> _]; [|exact Ht].
    rewrite list_lookup_insert_ne by congruence. reflexivity.
  - injection E1 as <-. reflexivity.
Qed.

(** A state without allowed action: its entry is set to 0, then overwritten
    with the initial [best_val], and [max_diff] becomes [infinity]. *)
Lemma sweep_state_terminal (V : list float) (max_diff : float) (s : Z)
    (V' : list float) (max_diff' : float) :
  0 <= s ->
  Task.get_allowed_actions m [s] = Ok (PySeq []) ->
  is_number max_diff ->
  sweep_state m gam (V, max_diff) s = Ok (V', max_diff') ->
  V' !! Z.to_nat s = Some neg_infinity /\ max_diff' = infinity.
Proof.
  intros Hs Hallowed Hnum Hrun. unfold sweep_state in Hrun.
  rewrite Hallowed in Hrun. cbn in Hrun.
  inv_bind Hrun. rename x into V1.
  inv_bind Hrun. rename x into old.
  inv_bind Hrun. rename x into V2.
  injection Hrun as <- <-.
  apply setitem_Ok in E as (k1 & Hk1 & ->).
  apply index_pos_nonneg in Hk1 as [-> Hlen]; [|exact Hs].
  apply getitem_Ok in E0 as (k & Hk & Hold).
  apply index_pos_nonneg in Hk as [-> _]; [|exact Hs].
  rewrite list_lookup_insert_eq in Hold by exact Hlen.
  injection Hold as <-.
  apply setitem_Ok in E1 as (k2 & Hk2 & ->).
  apply index_pos_nonneg in Hk2 as [-> Hlen2]; [|exact Hs].
  split; [apply list_lookup_insert_eq; exact Hlen2|].
  change (abs (0 - neg_infinity))%float with infinity.
  destruct (max_diff <? infinity)%float eqn:Hlt; [reflexivity|].
  exact (not_ltb_infinity _ Hnum Hlt).
Qed.

Lemma sweep_loop_app (l1 l2 : list Z) (acc : list float * float) :
  sweep_loop m gam (l1 ++ l2) acc =
  bind (sweep_loop m gam l1 acc) (sweep_loop m gam l2).
Proof.
  revert acc. induction l1 as [|t l1 IH]; intros acc; cbn; [reflexivity|].
  destruct (sweep_state m gam acc t) as [acc'|e]; cbn; [apply IH | reflexivity].
Qed.

Lemma sweep_loop_frame (states : list Z) (k : nat) :
  forall V max_diff V' max_diff',
    (forall t, t ∈ states -> 0 <= t /\ Z.to_nat t <> k) ->
    sweep_loop m gam states (V, max_diff) = Ok (V', max_diff') ->
    V' !! k = V !! k /\
    (is_number max_diff -> is_number max_diff') /\
    (max_diff = infinity -> max_diff' = infinity).
Proof.
  induction states as [|t rest IH]; intros V max_diff V' max_diff' Hstates Hrun.
  - cbn in Hrun. injection Hrun as <- <-. auto.
  - cbn [sweep_loop] in Hrun. inv_bind Hrun. destruct x as [V1 md1].
    destruct (Hstates t) as [Ht Hne]; [left|].
    destruct (sweep_state_frame _ _ _ _ _ Ht E) as (Hframe & Hnum & Hinf).
    destruct (IH V1 md1 V' max_diff') as (Hframe' & Hnum' & Hinf'); [|exact Hrun|].
    { intros t' Ht'. apply Hstates. right. exact Ht'. }
    rewrite Hframe', Hframe by congruence. auto.
Qed.

End Solver_sweep.

Section Solver_learn_claims.

Import ValueIterationSolver.

(** One sweep over a table in which state [s] has no allowed action. *)
Lemma sweep_terminal (self : ValueIterationSolver.t) (s : Z) (V' : list float) (max_diff : float) :
  0 <= s < num_states self ->
  Task.get_allowed_actions (mdp self) [s] = Ok (PySeq []) ->
  sweep self = Ok (V', max_diff) ->
  V' !! Z.to_nat s = Some neg_infinity /\ max_diff = infinity.
Proof.
  intros Hs Hallowed Hrun. unfold sweep, range in Hrun.
  assert (Hin : s ∈ seqZ 0 (num_states self)) by (apply elem_of_seqZ; lia).
  assert (Hnodup := NoDup_seqZ 0 (num_states self)).
  assert (Hall : forall t, t ∈ seqZ 0 (num_states self) -> 0 <= t).
  { intros t Ht%elem_of_seqZ. lia. }
  destruct (list_elem_of_split _ _ Hin) as (pre & post & Hsplit).
  rewrite Hsplit in Hrun, Hnodup, Hall.
  apply NoDup_app in Hnodup as (_ & Hpre & [Hpost _]%NoDup_cons).
  rewrite sweep_loop_app in Hrun. inv_bind Hrun. destruct x as [V1 md1].
  cbn [sweep_loop] in Hrun. inv_bind Hrun. destruct x as [V2 md2].
  assert (Hpre' : forall t, t ∈ pre -> 0 <= t /\ Z.to_nat t <> Z.to_nat s).
  { intros t Ht.
    assert (0 <= t) by (apply Hall, elem_of_app; left; exact Ht).
    split; [assumption|]. intros Heq. apply (Hpre t Ht).
    replace t with s by lia. left. }
  assert (Hpost' : forall t, t ∈ post -> 0 <= t /\ Z.to_nat t <> Z.to_nat s).
  { intros t Ht.
    assert (0 <= t) by (apply Hall, elem_of_app; right; right; exact Ht).
    split; [assumption|]. intros Heq. apply Hpost.
    replace s with t by lia. exact Ht. }
  destruct (sweep_loop_frame _ _ _ _ _ _ _ _ Hpre' E) as (_ & Hnum & _).
  destruct (sweep_state_terminal _ _ _ _ _ _ _ (proj1 Hs) Hallowed (Hnum eq_refl) E0)
    as [Hentry Hmd].
  destruct (sweep_loop_frame _ _ _ _ _ _ _ _ Hpost' Hrun) as (Hframe & _ & Hinf).
  rewrite Hframe. auto.
Qed.

(** C1 (what the code does instead). After one sweep of [learn], the entry
    of a state without allowed action is [-inf], not 0: the 0 written for a
    terminal state is overwritten with the initial [best_val], and the
    change recorded for the state is [abs(0 - (-inf))], so that [max_diff]
    is [infinity] at the end of the sweep. *)
Theorem sweep_terminal_neg_infinity (self : ValueIterationSolver.t) (s : Z)
    (V' : list float) (max_diff : float) :
  0 <= s < num_states self ->
  Task.get_allowed_actions (mdp self) [s] = Ok (PySeq []) ->
  sweep self = Ok (V', max_diff) ->
  getitem V' s = Ok neg_infinity /\
  (neg_infinity =? 0)%float = false /\
  max_diff = infinity.
Proof.
  intros Hs Hallowed Hrun.
  destruct (sweep_terminal self s V' max_diff Hs Hallowed Hrun) as [Hentry ->].
  split; [|split; reflexivity].
  unfold getitem, index_pos.
  assert (Hlen := lookup_lt_Some _ _ _ Hentry).
  destruct (Z.leb_spec 0 s); [|lia].
  destruct (Z.ltb_spec s (Z.of_nat (length V'))); [|lia].
  rewrite Hentry. reflexivity.
Qed.

Lemma sweep_terminal_neg_infinity_witness :
  getitem [0x1.e666666666666p+0; neg_infinity]%float 1 = Ok neg_infinity /\
  (neg_infinity =? 0)%float = false /\
  infinity = infinity.
Proof.
  apply (sweep_terminal_neg_infinity Examples.solver 1).
  - vm_compute. split; [discriminate | reflexivity].
  - reflexivity.
  - vm_compute. reflexivity.
Defined.

(** With a state without allowed action, [learn] never leaves its loop
    normally: every sweep ends with [max_diff = infinity]. *)
Lemma learn_terminal_never_returns (fuel : nat) :
  forall (self self' : ValueIterationSolver.t) (s : Z),
    0 <= s < num_states self ->
    Task.get_allowed_actions (mdp self) [s] = Ok (PySeq []) ->
    learn fuel self <> Some (Ok self').
Proof.
  induction fuel as [|fuel IH]; intros self self' s Hs Hallowed; [discriminate|].
  cbn [learn]. destruct (sweep self) as [[V' max_diff]|e] eqn:Hsweep; [|discriminate].
  destruct (sweep_terminal self s V' max_diff Hs Hallowed Hsweep) as [_ ->].
  rewrite infinity_not_ltb. apply (IH _ _ s); assumption.
Qed.

(** C2 (what the code does instead). On the two-state MDP with
    [gamma = 0.9] and [tol = 1e-3], [learn] does not terminate: however many
    sweeps it is allowed, it is still in its loop. *)
Theorem learn_two_state_diverges (fuel : nat) :
  learn fuel Examples.solver = None.
Proof.
  assert (Hfix : forall n, learn n (set_V Examples.solver [neg_infinity; neg_infinity]) = None).
  { induction n as [|n IH]; [reflexivity|].
    cbn [learn].
    assert (sweep (set_V Examples.solver [neg_infinity; neg_infinity])
            = Ok ([neg_infinity; neg_infinity], infinity)) as -> by (vm_compute; reflexivity).
    rewrite infinity_not_ltb. exact IH. }
  destruct fuel as [|[|n]]; [reflexivity..|].
  cbn [learn].
  assert (sweep Examples.solver
          = Ok ([0x1.e666666666666p+0; neg_infinity]%float, infinity)) as ->
    by (vm_compute; reflexivity).
  rewrite infinity_not_ltb.
  assert (sweep (set_V Examples.solver [0x1.e666666666666p+0; neg_infinity]%float)
          = Ok ([neg_infinity; neg_infinity], infinity)) as -> by (vm_compute; reflexivity).
  rewrite infinity_not_ltb. apply Hfix.
Qed.

End Solver_learn_claims.

(** ** TdLearner.__init__ *)

Section Learner_init.

Import TdLearner.

(** Over a task that follows the documented interface, the table cannot be
    built as soon as there is a state: [xrange] receives a sequence. *)
Lemma build_Q_sequence (task : Task.t) (s : Z) (rest l : list Z) :
  Task.get_allowed_actions task [s] = Ok (PySeq l) ->
  build_Q task (s :: rest) = Raise TypeError.
Proof. intros Hallowed. cbn [build_Q]. rewrite Hallowed. reflexivity. Qed.

Lemma build_Q_of_mdp n k g allowed dist reward (states : list Z) :
  build_Q (Task.of_mdp n k g allowed dist reward) states
  = match states with [] => Ok [] | _ => Raise TypeError end.
Proof. destruct states; reflexivity. Qed.

(** When [get_allowed_actions(s)] returns integers, the rows have that many
    entries, all equal to 1. *)
Lemma build_Q_counts (task : Task.t) (states : list Z) :
  forall Q, build_Q task states = Ok Q ->
    Forall2 (fun s row => exists n,
               Task.get_allowed_actions task [s] = Ok (PyInt n) /\
               row = replicate (Z.to_nat n) 1%float) states Q.
Proof.
  induction states as [|s rest IH]; intros Q HQ.
  - injection HQ as <-. constructor.
  - cbn [build_Q] in HQ. inv_bind HQ. rename x into o.
    inv_bind HQ. rename x into actions. inv_bind HQ. rename x into rows.
    injection HQ as <-. constructor; [|apply IH; exact E1].
    destruct o as [n|l]; [|discriminate]. injection E0 as <-.
    exists n. split; [exact E|].
    unfold range, seqZ. rewrite map_map.
    generalize 0%nat. induction (Z.to_nat n) as [|k IHk]; intros j; cbn; [reflexivity|].
    f_equal. apply IHk.
Qed.

Lemma init_unsupported (task : Task.t) (update : string) (eps alph : float) :
  supported update = false ->
  __init__ task update eps alph = Raise NotImplementedError.
Proof. unfold __init__. intros ->. reflexivity. Qed.

(** Over a task that follows the documented interface, [NotImplementedError]
    is raised exactly for the unsupported update rules. *)
Lemma init_NotImplementedError_iff n k g allowed dist reward (update : string)
    (eps alph : float) :
  __init__ (Task.of_mdp n k g allowed dist reward) update eps alph = Raise NotImplementedError
  <-> supported update = false.
Proof.
  split; [|apply init_unsupported].
  unfold __init__. destruct (supported update); [|reflexivity].
  cbn [negb]. rewrite build_Q_of_mdp.
  destruct (range _); cbn; discriminate.
Qed.

Lemma init_fresh (task : Task.t) (update : string) (eps alph : float) (self : TdLearner.t) :
  __init__ task update eps alph = Ok self -> fresh self.
Proof.
  unfold __init__. destruct (negb (supported update)); [discriminate|].
  intros H. inv_bind H. injection H as <-. repeat split.
Qed.

(** C3 (what the code does instead). With a supported update rule, a task
    with at least one state whose [get_allowed_actions(0)] returns a sequence
    of actions makes the construction raise [TypeError]: the sequence itself
    is passed to [xrange], and no Q table is built. *)
Theorem init_sequence_raises_TypeError (task : Task.t) (update : string)
    (eps alph : float) (l : list Z) :
  supported update = true ->
  0 < Task.get_num_states task ->
  Task.get_allowed_actions task [0] = Ok (PySeq l) ->
  __init__ task update eps alph = Raise TypeError.
Proof.
  intros Hsup Hn Hallowed. unfold __init__. rewrite Hsup. cbn [negb].
  unfold range. rewrite seqZ_cons by exact Hn.
  rewrite (build_Q_sequence _ _ _ _ Hallowed). reflexivity.
Qed.

Lemma init_sequence_raises_TypeError_witness :
  __init__ Examples.two_state "q_learning" 0.125 0.5 = Raise TypeError.
Proof.
  apply (init_sequence_raises_TypeError Examples.two_state "q_learning" 0.125 0.5 [0]);
    reflexivity.
Defined.

(** C9 (what the code does instead). Over the two-state MDP both supported
    update rules make the construction raise [TypeError] instead of
    completing; [NotImplementedError] is raised exactly for the unsupported
    rules. *)
Theorem init_supported_does_not_complete (eps alph : float) :
  __init__ Examples.two_state "q_learning" eps alph = Raise TypeError /\
  __init__ Examples.two_state "sarsa" eps alph = Raise TypeError /\
  forall update,
    __init__ Examples.two_state update eps alph = Raise NotImplementedError
    <-> supported update = false.
Proof.
  split; [reflexivity|]. split; [reflexivity|].
  intros update. apply init_NotImplementedError_iff.
Qed.

End Learner_init.

(** ** TdLearner.get_action and TdLearner.learn *)

Section Learner_steps.

Import TdLearner.

Lemma get_action_Ok (self : TdLearner.t) (state : Z) (g : rng) (a : Z)
    (self' : TdLearner.t) (g' : rng) :
  get_action self state g = Ok (a, self', g') -> self' = shift self state a.
Proof.
  unfold get_action. intros H. inv_bind H.
  destruct (random_random g) as [u g1]. inv_bind H.
  injection H as <- <- <-. reflexivity.
Qed.

(** The first call of [learn] only stores the reward. *)
Lemma learn_first_call (self : TdLearner.t) (reward : float) :
  s0 self = None -> learn self reward = Ok (set_r self (Some reward)).
Proof. unfold learn. intros ->. reflexivity. Qed.

(** The calls of [learn] that follow apply one backup, with the stored
    reward, and then store the reward they are given. *)
Lemma learn_backup (self : TdLearner.t) (reward : float) (s : Z) (self' : TdLearner.t) :
  s0 self = Some s ->
  (learn self reward = Ok self' <->
   exists target q1 rr q0 Q',
     next_action self = Ok target /\
     Q_get (Q self) (s1 self) target = Ok q1 /\
     r self = Some rr /\
     Q_get (Q self) (s0 self) (a0 self) = Ok q0 /\
     Q_set (Q self) (s0 self) (a0 self)
       (q0 + alpha self * (rr + gamma self * q1 - q0))%float = Ok Q' /\
     self' = set_r (set_Q self Q') (Some reward)).
Proof.
  intros Hs0. unfold learn. rewrite Hs0, <- Hs0. unfold _td_update. split.
  - intros H. inv_bind H. rename x into target.
    inv_bind H. inv_bind E0. rename x0 into q1.
    inv_bind E0. rename x0 into rr.
    inv_bind E0. rename x0 into q0.
    inv_bind E0. rename x0 into q0'.
    inv_bind E0. rename x0 into Q'.
    injection E0 as <-. injection H as <-.
    destruct (r self) as [rr'|]; [|discriminate]. injection E2 as ->.
    assert (q0' = q0) as -> by congruence.
    exists target, q1, rr, q0, Q'. repeat split; assumption.
  - intros (target & q1 & rr & q0 & Q' & Ht & Hq1 & Hr & Hq0 & HQ' & ->).
    rewrite Ht. cbn [bind]. rewrite Hq1. cbn [bind]. rewrite Hr. cbn [bind].
    rewrite Hq0. cbn [bind]. rewrite HQ'. reflexivity.
Qed.

(** Writing [Q[s][a] = x] replaces one entry of one row. *)
Lemma Q_set_Ok (Q : list (list float)) (s a : option Z) (x : float) (Q' : list (list float)) :
  Q_set Q s a x = Ok Q' ->
  exists s' a' i row j,
    s = Some s' /\ a = Some a' /\
    index_pos (length Q) s' = Some i /\ Q !! i = Some row /\
    index_pos (length row) a' = Some j /\
    Q' = <[i := <[j := x]> row]> Q.
Proof.
  unfold Q_set. intros H. inv_bind H. rename x0 into row.
  inv_bind H. rename x0 into row'.
  destruct s as [s'|]; [|discriminate]. destruct a as [a'|]; [|discriminate].
  cbn in E, E0, H.
  apply getitem_Ok in E as (i & Hi & Hrow).
  apply setitem_Ok in E0 as (j & Hj & ->).
  apply setitem_Ok in H as (i' & Hi' & ->).
  assert (i' = i) as -> by congruence.
  exists s', a', i, row, j. repeat split; assumption || reflexivity.
Qed.

Lemma entry_insert_ne (Q : list (list float)) (i j : nat) (row : list float)
    (x : float) (i' j' : nat) :
  Q !! i = Some row ->
  (i', j') <> (i, j) ->
  entry (<[i := <[j := x]> row]> Q) i' j' = entry Q i' j'.
Proof.
  intros Hrow Hne. unfold entry.
  destruct (decide (i' = i)) as [->|Hi].
  - rewrite list_lookup_insert_eq by (eapply lookup_lt_Some; exact Hrow).
    rewrite Hrow. apply list_lookup_insert_ne. congruence.
  - rewrite list_lookup_insert_ne by congruence. reflexivity.
Qed.

Lemma shape_insert (Q : list (list float)) (i j : nat) (row : list float) (x : float) :
  Q !! i = Some row ->
  length <$> <[i := <[j := x]> row]> Q = length <$> Q.
Proof.
  intros Hrow. rewrite list_fmap_insert, length_insert.
  apply list_insert_id. rewrite list_lookup_fmap, Hrow. reflexivity.
Qed.

End Learner_steps.

Section Learner_claims.

Import TdLearner.

Lemma next_action_Ok (self : TdLearner.t) (target : option Z) :
  next_action self = Ok target <-> is_target self target.
Proof.
  unfold next_action, is_target. split.
  - intros H. case_bool_decide as Hq.
    + inv_bind H. injection H as <-. left. eauto.
    + case_bool_decide as Hs; [|discriminate]. injection H as <-. right. auto.
  - intros [(Hq & a & Ha & ->) | (Hs & ->)].
    + rewrite bool_decide_true by exact Hq. rewrite Ha. reflexivity.
    + rewrite bool_decide_false by (rewrite Hs; discriminate).
      rewrite bool_decide_true by exact Hs. reflexivity.
Qed.

(** C4 (what the code does instead). Over a task whose
    [get_allowed_actions] takes the state as its argument,
    [TdLearner.get_action] raises [TypeError] whatever the state and the
    random draws: it calls the method without the state, before any action
    is selected. *)
Theorem get_action_raises_TypeError (self : TdLearner.t) (state : Z) (g : rng)
    (allowed : Z -> pyobj) :
  Task.get_allowed_actions (task self) = method1 allowed ->
  get_action self state g = Raise TypeError.
Proof. unfold get_action. intros ->. reflexivity. Qed.

Lemma get_action_raises_TypeError_witness :
  get_action (Examples.learner Examples.two_state "q_learning") 0 Examples.rng0
  = Raise TypeError.
Proof.
  apply (get_action_raises_TypeError _ 0 Examples.rng0
           (fun s => PySeq (if s =? 0 then [0] else []))).
  reflexivity.
Defined.

(** C10. A call of [learn] that returns leaves every field but [Q] and [r]
    as it was, stores the reward in [r], and keeps the shape of [Q].
    Without a previous state the learner is otherwise unchanged; with one,
    every entry of [Q] other than [Q[s0][a0]] is unchanged. *)
Theorem learn_frame (self : TdLearner.t) (reward : float) (self' : TdLearner.t) :
  learn self reward = Ok self' ->
  same_setup self self' /\ same_buffer self self' /\
  r self' = Some reward /\
  length <$> Q self' = length <$> Q self /\
  (s0 self = None -> self' = set_r self (Some reward)) /\
  (forall s, s0 self = Some s ->
     exists a i row j,
       a0 self = Some a /\
       index_pos (length (Q self)) s = Some i /\
       Q self !! i = Some row /\
       index_pos (length row) a = Some j /\
       forall i' j', (i', j') <> (i, j) ->
         entry (Q self') i' j' = entry (Q self) i' j').
Proof.
  intros Hrun. destruct (s0 self) as [s|] eqn:Hs0.
  - apply (learn_backup self reward s self' Hs0) in Hrun.
    destruct Hrun as (target & q1 & rr & q0 & Q' & _ & _ & _ & _ & HQ' & ->).
    apply Q_set_Ok in HQ' as (s' & a & i & row & j & Hs & Ha & Hi & Hrow & Hj & ->).
    rewrite Hs0 in Hs. injection Hs as <-.
    repeat split; cbn.
    + apply shape_insert. exact Hrow.
    + discriminate.
    + intros s2 [= <-]. exists a, i, row, j. repeat split; try assumption.
      intros i' j' Hne. apply entry_insert_ne; assumption.
  - rewrite learn_first_call in Hrun by exact Hs0. injection Hrun as <-.
    repeat split; cbn; discriminate.
Qed.

Lemma learn_frame_witness :
  exists self',
    learn (Examples.learner_mid Examples.lenient "sarsa") 4 = Ok self' /\
    same_setup (Examples.learner_mid Examples.lenient "sarsa") self' /\
    same_buffer (Examples.learner_mid Examples.lenient "sarsa") self' /\
    r self' = Some 4%float /\
    length <$> Q self' = [2; 2]%nat /\
    (Some 0 = None -> self' = set_r (Examples.learner_mid Examples.lenient "sarsa") (Some 4%float)) /\
    (forall s, Some 0 = Some s ->
       exists a i row j,
         Some 0 = Some a /\
         index_pos 2 s = Some i /\
         [[1; 1]; [1; 1]]%float !! i = Some row /\
         index_pos (length row) a = Some j /\
         forall i' j', (i', j') <> (i, j) ->
           entry (Q self') i' j' = entry [[1; 1]; [1; 1]]%float i' j').
Proof.
  eexists. split; [vm_compute; reflexivity|].
  apply (learn_frame (Examples.learner_mid Examples.lenient "sarsa") 4).
  vm_compute. reflexivity.
Defined.

End Learner_claims.

(** ** Further properties of ValueIterationSolver.get_action *)

Section Solver_get_action_more.

Import ValueIterationSolver.

Variables (self : ValueIterationSolver.t) (state : Z).

(** Once an action is held, the loop returns an action. *)
Lemma get_action_loop_Some actions :
  forall a best_val g res g',
    get_action_loop self state actions (Some a) best_val g = Ok (res, g') ->
    exists a', res = Some a'.
Proof.
  induction actions as [|action rest IH]; intros a best_val g res g' Hrun.
  - injection Hrun as <- <-. eauto.
  - cbn [get_action_loop] in Hrun. inv_bind Hrun.
    destruct (best_val <? x)%float; [eauto|].
    destruct (x =? best_val)%float; [|eauto].
    destruct (random_random g) as [u g1]. destruct (u <? 0.5)%float; eauto.
Qed.

(** While no action is held, [best_val] is the initial one, and no
    lookahead value compares greater. *)
Lemma get_action_loop_None actions :
  forall best_val g g',
    get_action_loop self state actions None best_val g = Ok (None, g') ->
    forall b, b ∈ actions ->
      exists vb, lookahead self state b = Ok vb /\ (best_val <? vb)%float = false.
Proof.
  induction actions as [|action rest IH]; intros best_val g g' Hrun b Hb.
  - inversion Hb.
  - cbn [get_action_loop] in Hrun. inv_bind Hrun. rename x into val.
    destruct (best_val <? val)%float eqn:Hlt.
    { apply get_action_loop_Some in Hrun as [a' [=]]. }
    assert (Hrest : exists g1, get_action_loop self state rest None best_val g1 = Ok (None, g')).
    { destruct (val =? best_val)%float; [|eauto].
      destruct (random_random g) as [u g1]. destruct (u <? 0.5)%float; [|eauto].
      apply get_action_loop_Some in Hrun as [a' [=]]. }
    destruct Hrest as [g1 Hrest].
    apply elem_of_cons in Hb as [-> | Hb]; [eauto | exact (IH _ _ _ Hrest b Hb)].
Qed.

End Solver_get_action_more.

Section Solver_get_action_extras.

Import ValueIterationSolver.

(** [ValueIterationSolver.get_action] returns [None] only when no allowed
    action of the state has a lookahead value above [-inf]. *)
Theorem get_action_None_only_at_bottom (self : ValueIterationSolver.t) (state : Z)
    (g g' : rng) :
  get_action self state g = Ok (None, g') ->
  exists actions,
    Task.get_allowed_actions (mdp self) [state] = Ok (PySeq actions) /\
    forall b, b ∈ actions ->
      exists vb, lookahead self state b = Ok vb /\ (neg_infinity <? vb)%float = false.
Proof.
  unfold get_action. intros Hrun.
  inv_bind Hrun. rename x into poss_actions.
  inv_bind Hrun. rename x into actions.
  destruct poss_actions as [n|l]; [discriminate|]. injection E0 as ->.
  exists actions. split; [exact E|].
  exact (get_action_loop_None self state actions _ _ _ Hrun).
Qed.

Lemma get_action_None_only_at_bottom_witness :
  exists g',
    get_action Examples.solver_low 0 Examples.rng0 = Ok (None, g') /\
    exists actions,
      Task.get_allowed_actions (mdp Examples.solver_low) [0] = Ok (PySeq actions) /\
      forall b, b ∈ actions ->
        exists vb, lookahead Examples.solver_low 0 b = Ok vb /\
                   (neg_infinity <? vb)%float = false.
Proof.
  eexists. split; [vm_compute; reflexivity|].
  eapply (get_action_None_only_at_bottom Examples.solver_low 0 Examples.rng0).
  vm_compute. reflexivity.
Defined.

Lemma lookahead_loop_ext (self self' : ValueIterationSolver.t) (ns_dist : list (Z * float)) :
  V self' = V self -> gamma self' = gamma self ->
  forall val, lookahead_loop self' ns_dist val = lookahead_loop self ns_dist val.
Proof.
  intros HV Hg. induction ns_dist as [|[ns prob] rest IH]; intros val; cbn; [reflexivity|].
  rewrite HV, Hg. destruct (getitem (V self) ns); cbn; [apply IH | reflexivity].
Qed.

Lemma get_action_loop_ext (self self' : ValueIterationSolver.t) (state : Z) (actions : list Z) :
  (forall a, lookahead self' state a = lookahead self state a) ->
  forall best_action best_val g,
    get_action_loop self' state actions best_action best_val g
    = get_action_loop self state actions best_action best_val g.
Proof.
  intros Hl. induction actions as [|action rest IH]; intros best_action best_val g;
    cbn [get_action_loop]; [reflexivity|].
  rewrite Hl. destruct (lookahead self state action) as [val|e]; cbn [bind]; [|reflexivity].
  destruct (best_val <? val)%float; [apply IH|].
  destruct (val =? best_val)%float; [|apply IH].
  destruct (random_random g) as [u g1]. destruct (u <? 0.5)%float; apply IH.
Qed.

(** The action returned by [ValueIterationSolver.get_action] does not depend
    on the rewards of the MDP: two solvers with the same table and discount
    whose MDPs have the same allowed actions and transitions return the same
    action from the same random draws. *)
Theorem get_action_ignores_rewards (self self' : ValueIterationSolver.t) (state : Z) (g : rng) :
  V self' = V self ->
  gamma self' = gamma self ->
  Task.get_allowed_actions (mdp self') = Task.get_allowed_actions (mdp self) ->
  Task.next_state_distribution (mdp self') = Task.next_state_distribution (mdp self) ->
  get_action self' state g = get_action self state g.
Proof.
  intros HV Hg Hallowed Hdist. unfold get_action. rewrite Hallowed.
  destruct (Task.get_allowed_actions (mdp self) [state]) as [o|e]; cbn [bind]; [|reflexivity].
  destruct (iter o) as [actions|e]; cbn [bind]; [|reflexivity].
  apply get_action_loop_ext. intros a. unfold lookahead. rewrite Hdist.
  apply lookahead_loop_ext; assumption.
Qed.

Lemma get_action_ignores_rewards_witness :
  get_action (__init__ Examples.two_state_rich Examples.tol) 0 Examples.rng0
  = get_action Examples.solver 0 Examples.rng0.
Proof.
  apply (get_action_ignores_rewards Examples.solver
           (__init__ Examples.two_state_rich Examples.tol) 0 Examples.rng0);
    reflexivity.
Defined.

End Solver_get_action_extras.

(** ** Further properties of ValueIterationSolver.learn *)

Section Solver_sweep_more.

Import ValueIterationSolver.

Variables (m : Task.t) (gam : float).

Lemma sweep_state_length (V : list float) (max_diff : float) (t : Z)
    (V' : list float) (max_diff' : float) :
  sweep_state m gam (V, max_diff) t = Ok (V', max_diff') ->
  length V' = length V /\
  ((max_diff = 0%float \/ (0 <? max_diff)%float = true) ->
   (max_diff' = 0%float \/ (0 <? max_diff')%float = true)).
Proof.
  intros Hrun. unfold sweep_state in Hrun.
  inv_bind Hrun. rename x into poss_actions.
  inv_bind Hrun. rename x into n.
  inv_bind Hrun. rename x into V1.
  inv_bind Hrun. rename x into actions.
  inv_bind Hrun. rename x into best_val.
  inv_bind Hrun. rename x into old.
  inv_bind Hrun. rename x into V2.
  injection Hrun as <- <-. split.
  - apply setitem_Ok in E5 as (k2 & _ & ->). rewrite length_insert.
    destruct (Nat.eqb n 0).
    + apply setitem_Ok in E1 as (k1 & _ & ->). apply length_insert.
    + injection E1 as <-. reflexivity.
  - intros Hpos. destruct (max_diff <? _)%float eqn:Hlt; [|exact Hpos].
    right. destruct Hpos as [-> | Hpos]; [exact Hlt | exact (ltb_trans _ _ _ Hpos Hlt)].
Qed.

Lemma sweep_loop_length (states : list Z) :
  forall V max_diff V' max_diff',
    sweep_loop m gam states (V, max_diff) = Ok (V', max_diff') ->
    length V' = length V /\
    ((max_diff = 0%float \/ (0 <? max_diff)%float = true) ->
     (max_diff' = 0%float \/ (0 <? max_diff')%float = true)).
Proof.
  induction states as [|t rest IH]; intros V max_diff V' max_diff' Hrun.
  - injection Hrun as <- <-. auto.
  - cbn [sweep_loop] in Hrun. inv_bind Hrun. destruct x as [V1 md1].
    destruct (sweep_state_length _ _ _ _ _ E) as [Hlen Hpos].
    destruct (IH _ _ _ _ Hrun) as [Hlen' Hpos']. split; [congruence | auto].
Qed.

(** The value kept by the loop over the actions of [learn]: the initial one
    or a greater one, above which no backup value compares. *)
Lemma best_val_loop_max (V : list float) (state : Z) (actions : list Z) :
  forall b0 bv,
    best_val_loop m gam V state actions b0 = Ok bv ->
    (bv = b0 \/ (b0 <? bv)%float = true) /\
    forall a, a ∈ actions ->
      exists va, backup m gam V state a = Ok va /\ (bv <? va)%float = false.
Proof.
  induction actions as [|action rest IH]; intros b0 bv Hrun.
  - injection Hrun as <-. split; [auto|]. intros a Ha. inversion Ha.
  - cbn [best_val_loop] in Hrun. inv_bind Hrun. rename x into val.
    destruct (IH _ _ Hrun) as [Hmono Hmax]. split.
    + destruct (b0 <? val)%float eqn:Hlt; [|exact Hmono].
      right. destruct Hmono as [-> | Hmono]; [exact Hlt | exact (ltb_trans _ _ _ Hlt Hmono)].
    + intros a [-> | Ha]%elem_of_cons; [|auto].
      exists val. split; [exact E|].
      destruct (b0 <? val)%float eqn:Hlt.
      * destruct Hmono as [-> | Hmono]; [apply ltb_irrefl|].
        exact (ltb_not_ltb _ _ _ Hmono (ltb_irrefl val)).
      * destruct Hmono as [-> | Hmono]; [exact Hlt|].
        exact (ltb_not_ltb _ _ _ Hmono Hlt).
Qed.

End Solver_sweep_more.

Section Solver_learn_extras.

Import ValueIterationSolver.

Lemma learn_terminal_never_returns_witness :
  0 <= 1 < num_states Examples.solver /\
  learn 7 Examples.solver <> Some (Ok Examples.solver_low).
Proof.
  split; [vm_compute; split; [discriminate | reflexivity]|].
  apply (learn_terminal_never_returns 7 Examples.solver Examples.solver_low 1).
  - vm_compute. split; [discriminate | reflexivity].
  - reflexivity.
Defined.

(** When [learn] returns, the value table has the length it had, and the
    MDP, the number of states, the discount and the tolerance of the solver
    are unchanged. *)
Theorem learn_keeps_table_size (fuel : nat) (self self' : ValueIterationSolver.t) :
  learn fuel self = Some (Ok self') ->
  length (V self') = length (V self) /\
  mdp self' = mdp self /\ num_states self' = num_states self /\
  gamma self' = gamma self /\ tol self' = tol self.
Proof.
  revert self. induction fuel as [|fuel IH]; intros self Hrun; [discriminate|].
  cbn [learn] in Hrun.
  destruct (sweep self) as [[V' max_diff]|e] eqn:Hsweep; [|discriminate].
  apply sweep_loop_length in Hsweep as [Hlen _].
  destruct (max_diff <? tol self)%float.
  - injection Hrun as <-. cbn. auto.
  - apply IH in Hrun. cbn in Hrun. destruct Hrun as (Hlen' & Hrest).
    split; [congruence | exact Hrest].
Qed.

Lemma learn_keeps_table_size_witness :
  exists self',
    learn 10 Examples.solver_loop = Some (Ok self') /\
    length (V self') = 1%nat /\
    mdp self' = Examples.self_loop /\ num_states self' = 1 /\
    gamma self' = 0.5%float /\ tol self' = Examples.tol.
Proof.
  eexists. split; [vm_compute; reflexivity|].
  apply (learn_keeps_table_size 10 Examples.solver_loop).
  vm_compute. reflexivity.
Defined.

(** When [learn] returns, its table is the result of a sweep, started from
    some table, whose [max_diff] is below [tol]. *)
Theorem learn_returns_below_tol (fuel : nat) (self self' : ValueIterationSolver.t) :
  learn fuel self = Some (Ok self') ->
  exists V_prev max_diff,
    sweep (set_V self V_prev) = Ok (V self', max_diff) /\
    (max_diff <? tol self)%float = true /\
    self' = set_V self (V self').
Proof.
  revert self. induction fuel as [|fuel IH]; intros self Hrun; [discriminate|].
  cbn [learn] in Hrun.
  destruct (sweep self) as [[V' max_diff]|e] eqn:Hsweep; [|discriminate].
  destruct (max_diff <? tol self)%float eqn:Htol.
  - injection Hrun as <-. exists (V self), max_diff. repeat split; assumption.
  - apply IH in Hrun as (V_prev & md & Hs & Ht & Hself).
    exists V_prev, md. repeat split; assumption.
Qed.

Lemma learn_returns_below_tol_witness :
  exists self',
    learn 10 Examples.solver_loop = Some (Ok self') /\
    exists V_prev max_diff,
      sweep (set_V Examples.solver_loop V_prev) = Ok (V self', max_diff) /\
      (max_diff <? Examples.tol)%float = true /\
      self' = set_V Examples.solver_loop (V self').
Proof.
  eexists. split; [vm_compute; reflexivity|].
  apply (learn_returns_below_tol 10 Examples.solver_loop).
  vm_compute. reflexivity.
Defined.

(** [max_diff] is never negative: with a tolerance that is not above 0,
    [learn] never leaves its loop normally. *)
Theorem learn_needs_positive_tol (fuel : nat) (self self' : ValueIterationSolver.t) :
  (0 <? tol self)%float = false ->
  learn fuel self <> Some (Ok self').
Proof.
  revert self. induction fuel as [|fuel IH]; intros self Htol; [discriminate|].
  cbn [learn].
  destruct (sweep self) as [[V' max_diff]|e] eqn:Hsweep; [|discriminate].
  apply sweep_loop_length in Hsweep as [_ Hpos].
  destruct (max_diff <? tol self)%float eqn:Hlt; [|apply IH; exact Htol].
  exfalso. destruct Hpos as [-> | Hpos]; [auto | | ].
  - rewrite Hlt in Htol. discriminate.
  - rewrite (ltb_trans _ _ _ Hpos Hlt) in Htol. discriminate.
Qed.

Lemma learn_needs_positive_tol_witness :
  (0 <? tol Examples.solver_tol0)%float = false /\
  learn 7 Examples.solver_tol0 <> Some (Ok Examples.solver_tol0).
Proof.
  split; [reflexivity|].
  apply (learn_needs_positive_tol 7 Examples.solver_tol0 Examples.solver_tol0).
  reflexivity.
Defined.

(** Without states and with a tolerance above 0, [learn] returns after its
    first sweep and leaves the table as it was. *)
Theorem learn_no_states (fuel : nat) (self : ValueIterationSolver.t) :
  num_states self <= 0 ->
  (0 <? tol self)%float = true ->
  learn (S fuel) self = Some (Ok (set_V self (V self))).
Proof.
  intros Hn Htol. cbn [learn]. unfold sweep, range.
  rewrite seqZ_nil by exact Hn. cbn [sweep_loop]. rewrite Htol. reflexivity.
Qed.

Lemma learn_no_states_witness :
  learn 1 Examples.solver_empty
  = Some (Ok (set_V Examples.solver_empty (V Examples.solver_empty))).
Proof.
  apply (learn_no_states 0 Examples.solver_empty); [discriminate | reflexivity].
Defined.

(** Processing a state that has allowed actions leaves in its entry a value
    above which no Bellman backup of an allowed action, computed on the
    table as the state found it, compares. *)
Theorem sweep_state_stores_max (m : Task.t) (gam : float) (V : list float)
    (max_diff : float) (s : Z) (actions : list Z) (V' : list float) (max_diff' : float) :
  0 <= s ->
  Task.get_allowed_actions m [s] = Ok (PySeq actions) ->
  actions <> [] ->
  sweep_state m gam (V, max_diff) s = Ok (V', max_diff') ->
  exists best_val,
    V' !! Z.to_nat s = Some best_val /\
    forall a, a ∈ actions ->
      exists va, backup m gam V s a = Ok va /\ (best_val <? va)%float = false.
Proof.
  intros Hs Hallowed Hne Hrun. unfold sweep_state in Hrun.
  rewrite Hallowed in Hrun. cbn [bind len iter] in Hrun.
  destruct actions as [|a0 rest]; [congruence|]. cbn [length Nat.eqb bind] in Hrun.
  inv_bind Hrun. rename x into best_val.
  inv_bind Hrun. rename x into old.
  inv_bind Hrun. rename x into V2.
  injection Hrun as <- <-.
  apply setitem_Ok in E1 as (k & Hk & ->).
  apply index_pos_nonneg in Hk as [-> Hlen]; [|exact Hs].
  exists best_val. split; [apply list_lookup_insert_eq; exact Hlen|].
  exact (proj2 (best_val_loop_max _ _ _ _ _ _ _ E)).
Qed.

Lemma sweep_state_stores_max_witness :
  exists best_val,
    [0x1.e666666666666p+0; 1]%float !! Z.to_nat 0 = Some best_val /\
    forall a, a ∈ [0] ->
      exists va,
        backup Examples.two_state 0x1.ccccccccccccdp-1%float [1; 1]%float 0 a = Ok va /\
        (best_val <? va)%float = false.
Proof.
  apply (sweep_state_stores_max Examples.two_state 0x1.ccccccccccccdp-1%float
           [1; 1]%float 0%float 0 [0] _ 0x1.cccccccccccccp-1%float).
  - discriminate.
  - reflexivity.
  - discriminate.
  - vm_compute. reflexivity.
Defined.

End Solver_learn_extras.

(** ** Further facts on binary64 comparisons *)

Section Float_equality.

Lemma SFeqb_trans x y z : SFeqb x y = true -> SFeqb y z = true -> SFeqb x z = true.
Proof.
  unfold SFeqb.
  destruct x as [[]|[]| |[] ? ?], y as [[]|[]| |[] ? ?]; cbn; try discriminate;
    destruct z as [[]|[]| |[] ? ?]; cbn; try discriminate; try reflexivity;
    repeat match goal with
    | |- context [Z.compare ?a ?b] => destruct (Z.compare_spec a b); subst
    | |- context [Pos.compare_cont Eq ?a ?b] =>
        change (Pos.compare_cont Eq a b) with (Pos.compare a b);
        destruct (Pos.compare_spec a b); subst
    end; cbn; try discriminate; try reflexivity; intros; try lia.
Qed.

Lemma eqb_trans (x y z : float) :
  (x =? y)%float = true -> (y =? z)%float = true -> (x =? z)%float = true.
Proof. rewrite !FloatAxioms.eqb_spec. apply SFeqb_trans. Qed.

(** NaN compares neither below nor equal to anything. *)
Lemma nan_not_ltb (x y : float) : (x =? x)%float = false -> (x <? y)%float = false.
Proof.
  rewrite FloatAxioms.eqb_spec, FloatAxioms.ltb_spec. unfold SFeqb, SFltb.
  destruct (Prim2SF x) as [[]|[]| |[] m e]; cbn; try discriminate; try reflexivity.
  all: rewrite Z.compare_refl, Pos.compare_cont_refl; discriminate.
Qed.

Lemma nan_not_eqb (x y : float) : (x =? x)%float = false -> (y =? x)%float = false.
Proof.
  rewrite !FloatAxioms.eqb_spec. unfold SFeqb.
  destruct (Prim2SF x) as [[]|[]| |[] m e]; cbn; try discriminate.
  - intros _. destruct (Prim2SF y) as [[]|[]| |[] ? ?]; reflexivity.
  - rewrite Z.compare_refl, Pos.compare_cont_refl; discriminate.
  - rewrite Z.compare_refl, Pos.compare_cont_refl; discriminate.
Qed.

End Float_equality.

(** ** TdLearner._greedy_action *)

Section Learner_greedy.

Import TdLearner.

Lemma same_or_equal_refl (x : float) : same_or_equal x x = true.
Proof. unfold same_or_equal, is_nan. destruct (x =? x)%float; reflexivity. Qed.

(** What [same_or_equal v m] transfers from [m] to [v]. *)
Lemma same_or_equal_bound (v m y : float) :
  same_or_equal v m = true -> (m <? y)%float = false -> (v <? y)%float = false.
Proof.
  unfold same_or_equal, is_nan. intros Hsame Hle.
  destruct (v =? m)%float eqn:Heq; [exact (eqb_not_ltb _ _ _ Heq Hle)|].
  cbn in Hsame. apply andb_true_iff in Hsame as [Hv _].
  apply nan_not_ltb. destruct (v =? v)%float; [discriminate | reflexivity].
Qed.

Lemma same_or_equal_first (w v m : float) :
  same_or_equal v m = true -> same_or_equal w m = false -> (w =? v)%float = false.
Proof.
  unfold same_or_equal, is_nan. intros Hv Hw.
  apply orb_false_iff in Hw as [Hwm _].
  destruct (v =? m)%float eqn:Heq.
  - destruct (w =? v)%float eqn:Hwv; [|reflexivity].
    rewrite (eqb_trans _ _ _ Hwv Heq) in Hwm. discriminate.
  - cbn in Hv. apply andb_true_iff in Hv as [Hv _].
    apply nan_not_eqb. destruct (v =? v)%float; [discriminate | reflexivity].
Qed.

(** The value computed by [max]: an element of the list above which no
    element compares. *)
Lemma max_fold_bound (rest : list float) :
  forall x,
    let m := fold_left (fun m y => if (m <? y)%float then y else m) rest x in
    (m = x \/ (x <? m)%float = true) /\
    m ∈ x :: rest /\
    forall y, y ∈ rest -> (m <? y)%float = false.
Proof.
  induction rest as [|z rest IH]; intros x; cbn.
  - split; [auto|]. split; [left|]. intros y Hy. inversion Hy.
  - destruct (x <? z)%float eqn:Hlt.
    + destruct (IH z) as (Hmono & Hin & Hmax). split; [|split].
      * right. destruct Hmono as [-> | Hmono]; [exact Hlt | exact (ltb_trans _ _ _ Hlt Hmono)].
      * right. exact Hin.
      * intros y Hy. apply elem_of_cons in Hy as [Hy | Hy]; [subst y|auto].
        destruct Hmono as [-> | Hmono]; [apply ltb_irrefl|].
        exact (ltb_not_ltb _ _ _ Hmono (ltb_irrefl z)).
    + destruct (IH x) as (Hmono & Hin & Hmax). split; [exact Hmono|]. split.
      * apply elem_of_cons in Hin as [-> | Hin]; [left | right; right; exact Hin].
      * intros y Hy. apply elem_of_cons in Hy as [Hy | Hy]; [subst y|auto].
        destruct Hmono as [-> | Hmono]; [exact Hlt|].
        exact (ltb_not_ltb _ _ _ Hmono Hlt).
Qed.

(** [index] finds the first position that passes the test. *)
Lemma index_first (l : list float) (m : float) :
  m ∈ l ->
  exists i v,
    index l m = Ok (Z.of_nat i) /\ l !! i = Some v /\
    same_or_equal v m = true /\
    forall k w, (k < i)%nat -> l !! k = Some w -> same_or_equal w m = false.
Proof.
  induction l as [|y rest IH]; intros Hin; [inversion Hin|].
  cbn [index]. destruct (same_or_equal y m) eqn:Hy.
  - exists 0%nat, y. repeat split; [assumption|]. intros k w Hk. lia.
  - apply elem_of_cons in Hin as [-> | Hin].
    { rewrite same_or_equal_refl in Hy. discriminate. }
    destruct (IH Hin) as (i & v & Hidx & Hv & Hsame & Hfirst).
    exists (S i), v. rewrite Hidx. cbn [bind].
    split; [f_equal; lia|]. split; [exact Hv|]. split; [exact Hsame|].
    intros [|k] w Hk Hw; [injection Hw as <-; exact Hy|].
    apply (Hfirst k w); [lia | exact Hw].
Qed.

Lemma greedy_action_row (self : TdLearner.t) (state : option Z) (row : list float) :
  getitem_opt (Q self) state = Ok row ->
  row <> [] ->
  exists i v,
    _greedy_action self state = Ok (Z.of_nat i) /\
    row !! i = Some v /\
    (forall y, y ∈ row -> (v <? y)%float = false) /\
    (forall k w, (k < i)%nat -> row !! k = Some w -> (w =? v)%float = false).
Proof.
  intros Hrow Hne. unfold _greedy_action. rewrite Hrow. cbn [bind].
  destruct row as [|x rest]; [congruence|]. cbn [max bind].
  destruct (max_fold_bound rest x) as (Hmono & Hin & Hmax).
  set (m := fold_left _ rest x) in *.
  destruct (index_first (x :: rest) m Hin) as (i & v & Hidx & Hv & Hsame & Hfirst).
  exists i, v. split; [exact Hidx|]. split; [exact Hv|]. split.
  - intros y Hy. apply (same_or_equal_bound v m y Hsame).
    apply elem_of_cons in Hy as [Hy | Hy]; [subst y|auto].
    destruct Hmono as [-> | Hmono]; [apply ltb_irrefl|].
    exact (ltb_not_ltb _ _ _ Hmono (ltb_irrefl x)).
  - intros k w Hk Hw. exact (same_or_equal_first w v m Hsame (Hfirst k w Hk Hw)).
Qed.

(** On a non-empty row [_greedy_action] returns a position of the row whose
    value no value of the row compares above, and no earlier position holds
    an equal value (first index on a tie), NaN entries included. *)
Theorem greedy_action_maximal_first (self : TdLearner.t) (state : option Z)
    (row : list float) :
  getitem_opt (Q self) state = Ok row ->
  row <> [] ->
  exists i v,
    _greedy_action self state = Ok (Z.of_nat i) /\
    row !! i = Some v /\
    (forall y, y ∈ row -> (v <? y)%float = false) /\
    (forall k w, (k < i)%nat -> row !! k = Some w -> (w =? v)%float = false).
Proof. exact (greedy_action_row self state row). Qed.

Lemma greedy_action_maximal_first_witness :
  exists i v,
    _greedy_action Examples.learner_rows (Some 0) = Ok (Z.of_nat i) /\
    [1; 3; 3; 2]%float !! i = Some v /\
    (forall y, y ∈ [1; 3; 3; 2]%float -> (v <? y)%float = false) /\
    (forall k w, (k < i)%nat -> [1; 3; 3; 2]%float !! k = Some w -> (w =? v)%float = false).
Proof.
  apply (greedy_action_maximal_first Examples.learner_rows (Some 0)
           [1; 3; 3; 2]%float); [reflexivity | discriminate].
Defined.

(** When the row of the state exists, [_greedy_action] raises exactly when
    the row is empty, and the exception is then [ValueError]. *)
Theorem greedy_action_raises_iff_empty (self : TdLearner.t) (state : option Z)
    (row : list float) :
  getitem_opt (Q self) state = Ok row ->
  (forall e, _greedy_action self state = Raise e -> row = [] /\ e = ValueError) /\
  (row = [] -> _greedy_action self state = Raise ValueError).
Proof.
  intros Hrow. split.
  - intros e Hraise. destruct row as [|x rest].
    + unfold _greedy_action in Hraise. rewrite Hrow in Hraise.
      injection Hraise as <-. auto.
    + destruct (greedy_action_row self state (x :: rest) Hrow) as (i & v & Hok & _);
        [discriminate|]. congruence.
  - intros ->. unfold _greedy_action. rewrite Hrow. reflexivity.
Qed.

Lemma greedy_action_raises_iff_empty_witness :
  (forall e, _greedy_action Examples.learner_rows (Some 1) = Raise e ->
             @nil float = [] /\ e = ValueError) /\
  (@nil float = [] -> _greedy_action Examples.learner_rows (Some 1) = Raise ValueError).
Proof.
  apply (greedy_action_raises_iff_empty Examples.learner_rows (Some 1) []).
  reflexivity.
Defined.

End Learner_greedy.

(** ** Further properties of TdLearner *)

Section Learner_extras.

Import TdLearner.

Lemma index_pos_bound (n : nat) (i : Z) (k : nat) :
  index_pos n i = Some k -> (k < n)%nat.
Proof.
  unfold index_pos.
  destruct (Z.leb_spec 0 i).
  - destruct (Z.ltb_spec i (Z.of_nat n)); [|discriminate]. intros [= <-]. lia.
  - destruct (Z.leb_spec 0 (i + Z.of_nat n)); [|discriminate]. intros [= <-]. lia.
Qed.

(** Reading the entry that [Q_set] wrote returns the written value. *)
Lemma Q_set_get (Q : list (list float)) (s a : option Z) (x : float) (Q' : list (list float)) :
  Q_set Q s a x = Ok Q' -> Q_get Q' s a = Ok x.
Proof.
  intros H. apply Q_set_Ok in H as (s' & a' & i & row & j & -> & -> & Hi & Hrow & Hj & ->).
  unfold Q_get. cbn [getitem_opt]. unfold getitem at 1.
  rewrite length_insert, Hi.
  rewrite list_lookup_insert_eq by (eapply lookup_lt_Some; exact Hrow).
  cbn [bind]. unfold getitem. rewrite length_insert, Hj.
  rewrite list_lookup_insert_eq by (eapply index_pos_bound; exact Hj).
  reflexivity.
Qed.

(** When the construction returns, the update rule is a supported one, the
    buffer is empty, and for every state [get_allowed_actions(s)] returned an
    integer [n] and the row of the state is [n] times the value 1. *)
Theorem init_builds_rows_of_ones (task : Task.t) (update : string) (eps alph : float)
    (self : TdLearner.t) :
  __init__ task update eps alph = Ok self ->
  supported update = true /\
  fresh self /\
  Forall2 (fun s row => exists n,
             Task.get_allowed_actions task [s] = Ok (PyInt n) /\
             row = replicate (Z.to_nat n) 1%float)
          (range (Task.get_num_states task)) (Q self).
Proof.
  intros Hinit. split; [|split].
  - unfold __init__ in Hinit. destruct (supported update); [reflexivity | discriminate].
  - exact (init_fresh _ _ _ _ _ Hinit).
  - unfold __init__ in Hinit. destruct (negb (supported update)); [discriminate|].
    inv_bind Hinit. injection Hinit as <-. cbn. apply build_Q_counts. exact E.
Qed.

Lemma init_builds_rows_of_ones_witness :
  exists self,
    __init__ Examples.counting "sarsa" 0.125 0.5 = Ok self /\
    supported "sarsa" = true /\
    fresh self /\
    Forall2 (fun s row => exists n,
               Task.get_allowed_actions Examples.counting [s] = Ok (PyInt n) /\
               row = replicate (Z.to_nat n) 1%float)
            (range (Task.get_num_states Examples.counting)) (Q self).
Proof.
  eexists. split; [vm_compute; reflexivity|].
  apply (init_builds_rows_of_ones Examples.counting "sarsa" 0.125 0.5).
  vm_compute. reflexivity.
Defined.

(** When [TdLearner.get_action] returns, the table and the stored reward
    are unchanged and the buffer is shifted; the action is an element of the
    sequence that [get_allowed_actions()] returned when the draw is below
    [epsilon], and the greedy action of the state otherwise. *)
Theorem td_get_action_result (self : TdLearner.t) (state : Z) (g : rng) (a : Z)
    (self' : TdLearner.t) (g' : rng) :
  get_action self state g = Ok (a, self', g') ->
  self' = shift self state a /\
  exists o,
    Task.get_allowed_actions (task self) [] = Ok o /\
    if (draws g 0%nat <? epsilon self)%float
    then exists l, o = PySeq l /\ a ∈ l
    else _greedy_action self (Some state) = Ok a /\ g' = snd (random_random g).
Proof.
  intros Hrun. split; [exact (get_action_Ok _ _ _ _ _ _ Hrun)|].
  unfold get_action in Hrun. inv_bind Hrun. rename x into o.
  exists o. split; [exact E|]. cbn [random_random] in Hrun.
  destruct (draws g 0%nat <? epsilon self)%float.
  - inv_bind Hrun. injection Hrun as <- _ _.
    unfold random_choice in E0. inv_bind E0. destruct o as [n|l]; [discriminate|].
    exists l. split; [reflexivity|].
    destruct (l !! _) as [b|] eqn:Hb; [|discriminate]. injection E0 as <-.
    cbn. eapply list_elem_of_lookup_2. exact Hb.
  - inv_bind Hrun. inv_bind E0. injection E0 as <-. injection Hrun as <- _ <-.
    split; [exact E1 | reflexivity].
Qed.

Lemma td_get_action_result_witness :
  exists self' g',
    get_action (Examples.learner Examples.lenient "sarsa") 0 Examples.rng0
    = Ok (0, self', g') /\
    self' = shift (Examples.learner Examples.lenient "sarsa") 0 0 /\
    exists o,
      Task.get_allowed_actions Examples.lenient [] = Ok o /\
      if (0.5 <? 0.125)%float
      then exists l, o = PySeq l /\ 0 ∈ l
      else _greedy_action (Examples.learner Examples.lenient "sarsa") (Some 0) = Ok 0 /\
           g' = snd (random_random Examples.rng0).
Proof.
  eexists _, _. split; [vm_compute; reflexivity|].
  apply (td_get_action_result (Examples.learner Examples.lenient "sarsa") 0 Examples.rng0 0).
  vm_compute. reflexivity.
Defined.

(** With a previous state but no stored reward (two calls of [get_action]
    before the first [learn]), [learn] raises: [TypeError] as soon as the
    bootstrap target and its entry are available. *)
Theorem learn_without_reward_raises (self : TdLearner.t) (reward : float) (s : Z) :
  s0 self = Some s ->
  r self = None ->
  (exists e, learn self reward = Raise e) /\
  (forall target q1,
     next_action self = Ok target ->
     Q_get (Q self) (s1 self) target = Ok q1 ->
     learn self reward = Raise TypeError).
Proof.
  intros Hs0 Hr. split.
  - destruct (learn self reward) as [self'|e] eqn:Hrun; [|eauto].
    apply (learn_backup self reward s self' Hs0) in Hrun.
    destruct Hrun as (target & q1 & rr & q0 & Q' & _ & _ & Hrr & _). congruence.
  - intros target q1 Ht Hq1. unfold learn, _td_update. rewrite Hs0, Ht. cbn [bind].
    rewrite Hq1, Hr. reflexivity.
Qed.

Lemma learn_without_reward_raises_witness :
  (exists e, learn (Examples.learner_unpaid Examples.lenient "sarsa") 4 = Raise e) /\
  (forall target q1,
     next_action (Examples.learner_unpaid Examples.lenient "sarsa") = Ok target ->
     Q_get [[1; 1]; [1; 1]]%float (Some 1) target = Ok q1 ->
     learn (Examples.learner_unpaid Examples.lenient "sarsa") 4 = Raise TypeError).
Proof.
  apply (learn_without_reward_raises (Examples.learner_unpaid Examples.lenient "sarsa") 4 0);
    reflexivity.
Defined.

(** After a call of [learn] that applied a backup, [Q[s0][a0]] reads the
    backed-up value [q0 + alpha * (r + gamma * q1 - q0)], where [q0] and
    [q1] are the entries [Q[s0][a0]] and [Q[s1][target]] read before. *)
Theorem learn_reads_back (self : TdLearner.t) (reward : float) (s : Z)
    (self' : TdLearner.t) :
  s0 self = Some s ->
  learn self reward = Ok self' ->
  exists target q1 rr q0,
    is_target self target /\
    Q_get (Q self) (s1 self) target = Ok q1 /\
    r self = Some rr /\
    Q_get (Q self) (s0 self) (a0 self) = Ok q0 /\
    Q_get (Q self') (s0 self) (a0 self)
    = Ok (q0 + alpha self * (rr + gamma self * q1 - q0))%float.
Proof.
  intros Hs0 Hrun. apply (learn_backup self reward s self' Hs0) in Hrun.
  destruct Hrun as (target & q1 & rr & q0 & Q' & Ht & Hq1 & Hrr & Hq0 & HQ' & ->).
  exists target, q1, rr, q0. repeat split; try assumption.
  - apply next_action_Ok. exact Ht.
  - cbn. apply Q_set_get with (Q := Q self). exact HQ'.
Qed.

Lemma learn_reads_back_witness :
  exists self',
    learn (Examples.learner_mid Examples.lenient "sarsa") 4 = Ok self' /\
    exists target q1 rr q0,
      is_target (Examples.learner_mid Examples.lenient "sarsa") target /\
      Q_get [[1; 1]; [1; 1]]%float (Some 1) target = Ok q1 /\
      Some 2%float = Some rr /\
      Q_get [[1; 1]; [1; 1]]%float (Some 0) (Some 0) = Ok q0 /\
      Q_get (Q self') (Some 0) (Some 0) = Ok (q0 + 0.5 * (rr + 0.5 * q1 - q0))%float.
Proof.
  eexists. split; [vm_compute; reflexivity|].
  apply (learn_reads_back (Examples.learner_mid Examples.lenient "sarsa") 4 0).
  - reflexivity.
  - vm_compute. reflexivity.
Defined.

(** When the action chosen for the current state is the greedy one, the
    [q_learning] and the [sarsa] rules write the same table: two learners
    that differ only in their update rule end with the same [Q]. *)
Theorem learn_rules_agree_on_greedy (self_q self_s : TdLearner.t) (reward : float)
    (s a : Z) (self_q' : TdLearner.t) :
  update self_q = "q_learning" ->
  update self_s = "sarsa" ->
  Q self_s = Q self_q ->
  gamma self_s = gamma self_q ->
  alpha self_s = alpha self_q ->
  s0 self_s = s0 self_q -> a0 self_s = a0 self_q ->
  r self_s = r self_q -> s1 self_s = s1 self_q ->
  s0 self_q = Some s ->
  _greedy_action self_q (s1 self_q) = Ok a ->
  a1 self_s = Some a ->
  learn self_q reward = Ok self_q' ->
  exists self_s', learn self_s reward = Ok self_s' /\ Q self_s' = Q self_q'.
Proof.
  intros Hq Hs HQ Hg Ha Hs0 Ha0 Hr Hs1 Hprev Hgreedy Ha1 Hrun.
  apply (learn_backup self_q reward s self_q' Hprev) in Hrun.
  destruct Hrun as (target & q1 & rr & q0 & Q' & Ht & Hq1 & Hrr & Hq0 & HQ' & ->).
  assert (target = Some a) as ->.
  { unfold next_action in Ht. rewrite bool_decide_true in Ht by exact Hq.
    rewrite Hgreedy in Ht. injection Ht as <-. reflexivity. }
  exists (set_r (set_Q self_s Q') (Some reward)). split; [|reflexivity].
  apply (learn_backup self_s reward s); [congruence|].
  exists (Some a), q1, rr, q0, Q'.
  rewrite HQ, Hg, Ha, Hs0, Ha0, Hr, Hs1. repeat split; try assumption.
  unfold next_action. rewrite bool_decide_false by (rewrite Hs; discriminate).
  rewrite bool_decide_true by exact Hs. congruence.
Qed.

Lemma learn_rules_agree_on_greedy_witness :
  exists self_q',
    learn (Examples.learner_mid Examples.lenient "q_learning") 4 = Ok self_q' /\
    exists self_s',
      learn (Examples.learner_mid Examples.lenient "sarsa") 4 = Ok self_s' /\
      Q self_s' = Q self_q'.
Proof.
  eexists. split; [vm_compute; reflexivity|].
  apply (learn_rules_agree_on_greedy
           (Examples.learner_mid Examples.lenient "q_learning")
           (Examples.learner_mid Examples.lenient "sarsa") 4 0 0);
    reflexivity.
Defined.

End Learner_extras.

(** ** The TD backup of TdLearner.learn *)

Section Learner_backup_claims.

Import TdLearner.

(** The target that [next_action] computes is the one of the
    specification, with the value that the backup reads for it. *)
Lemma next_action_bootstrap_target (self : TdLearner.t) (target : option Z) (q1 : float) :
  next_action self = Ok target ->
  Q_get (Q self) (s1 self) target = Ok q1 ->
  bootstrap_target (update self) (Q self) (s1 self) (a1 self) target q1.
Proof.
  unfold next_action, bootstrap_target. intros Ht Hq1.
  case_bool_decide as Hq.
  - left. split; [exact Hq|]. inv_bind Ht. rename x into a. injection Ht as <-.
    assert (Hrow : exists row, getitem_opt (Q self) (s1 self) = Ok row /\ row <> []).
    { unfold _greedy_action in E.
      destruct (getitem_opt (Q self) (s1 self)) as [row|e]; [|discriminate].
      exists row. split; [reflexivity|]. intros ->. discriminate. }
    destruct Hrow as (row & Hrow & Hne).
    destruct (greedy_action_row self (s1 self) row Hrow Hne)
      as (i & v & Hi & Hv & Hmax & Hfirst).
    assert (a = Z.of_nat i) as -> by congruence.
    assert (q1 = v) as ->.
    { unfold Q_get in Hq1. rewrite Hrow in Hq1. cbn in Hq1.
      apply getitem_Ok in Hq1 as (k & Hk & Hq1).
      apply index_pos_nonneg in Hk as [-> _]; [|lia].
      rewrite Nat2Z.id in Hq1. congruence. }
    exists row, i. auto.
  - case_bool_decide as Hs; [|discriminate]. injection Ht as <-.
    right. auto.
Qed.

(** What a call of [learn] with a previous state does to the learner. *)
Lemma learn_backup_entry (self : TdLearner.t) (reward : float) (s : Z)
    (self' : TdLearner.t) :
  s0 self = Some s ->
  learn self reward = Ok self' ->
  exists target q1 rr q0 a i row j,
    bootstrap_target (update self) (Q self) (s1 self) (a1 self) target q1 /\
    r self = Some rr /\
    a0 self = Some a /\
    index_pos (length (Q self)) s = Some i /\
    Q self !! i = Some row /\
    index_pos (length row) a = Some j /\
    row !! j = Some q0 /\
    Q self' = with_entry (Q self) i j (td_backup (alpha self) (gamma self) q0 rr q1) /\
    Q_get (Q self') (s0 self) (a0 self)
    = Ok (td_backup (alpha self) (gamma self) q0 rr q1) /\
    r self' = Some reward.
Proof.
  intros Hs0 Hrun. apply (learn_backup self reward s self' Hs0) in Hrun.
  destruct Hrun as (target & q1 & rr & q0 & Q' & Ht & Hq1 & Hrr & Hq0 & HQ' & ->).
  assert (Hback := Q_set_get _ _ _ _ _ HQ').
  apply Q_set_Ok in HQ' as (s' & a & i & row & j & Hs & Ha & Hi & Hrow & Hj & ->).
  rewrite Hs0 in Hs. injection Hs as <-.
  assert (Hq0' : row !! j = Some q0).
  { unfold Q_get in Hq0. rewrite Hs0, Ha in Hq0. cbn [getitem_opt] in Hq0.
    unfold getitem at 1 in Hq0. rewrite Hi, Hrow in Hq0. cbn [bind] in Hq0.
    unfold getitem in Hq0. rewrite Hj in Hq0.
    destruct (row !! j) as [x|]; [|discriminate]. congruence. }
  exists target, q1, rr, q0, a, i, row, j.
  split; [exact (next_action_bootstrap_target self target q1 Ht Hq1)|].
  repeat split; try assumption.
  cbn. unfold with_entry. rewrite Hrow. reflexivity.
Qed.

(** C7. When a previous state exists and [learn(reward)] returns, the
    bootstrap target is the greedy action at [s1] (an argmax of the row
    [Q[s1]], the first one on a tie) when [update] is [q_learning] and the
    chosen action [a1] when it is [sarsa]; with [q0 = Q[s0][a0]],
    [q1 = Q[s1][target]] and [r] the stored reward, the new table is the
    old one with the entry [Q[s0][a0]] replaced by
    [q0 + alpha * (r + gamma * q1 - q0)], which is what [Q[s0][a0]] reads
    afterwards, and [reward] is stored. *)
Theorem learn_applies_td_backup (self : TdLearner.t) (reward : float) (s : Z)
    (self' : TdLearner.t) :
  s0 self = Some s ->
  learn self reward = Ok self' ->
  exists target q1 rr q0 a i row j,
    bootstrap_target (update self) (Q self) (s1 self) (a1 self) target q1 /\
    r self = Some rr /\
    a0 self = Some a /\
    index_pos (length (Q self)) s = Some i /\
    Q self !! i = Some row /\
    index_pos (length row) a = Some j /\
    row !! j = Some q0 /\
    Q self' = with_entry (Q self) i j (td_backup (alpha self) (gamma self) q0 rr q1) /\
    Q_get (Q self') (s0 self) (a0 self)
    = Ok (td_backup (alpha self) (gamma self) q0 rr q1) /\
    r self' = Some reward.
Proof. exact (learn_backup_entry self reward s self'). Qed.

(** The learner [learner_skewed] under [q_learning]: the chosen action at
    state 1 is 0 and the greedy one is 1. *)
Lemma learn_applies_td_backup_witness :
  exists self',
    learn (Examples.learner_skewed "q_learning") 4 = Ok self' /\
    exists target q1 rr q0 a i row j,
      bootstrap_target "q_learning" [[1; 1]; [1; 3]]%float (Some 1) (Some 0) target q1 /\
      Some 2%float = Some rr /\
      Some 0 = Some a /\
      index_pos 2 0 = Some i /\
      [[1; 1]; [1; 3]]%float !! i = Some row /\
      index_pos (length row) a = Some j /\
      row !! j = Some q0 /\
      Q self' = with_entry [[1; 1]; [1; 3]]%float i j (td_backup 0.5 0.5 q0 rr q1) /\
      Q_get (Q self') (Some 0) (Some 0) = Ok (td_backup 0.5 0.5 q0 rr q1) /\
      r self' = Some 4%float.
Proof.
  eexists. split; [vm_compute; reflexivity|].
  apply (learn_applies_td_backup (Examples.learner_skewed "q_learning") 4 0).
  - reflexivity.
  - vm_compute. reflexivity.
Defined.

(** On [learner_skewed] the two rules differ: [q_learning] bootstraps from
    [Q[1][1] = 3] and writes [1 + 0.5 * (2 + 0.5 * 3 - 1) = 2.25], [sarsa]
    from [Q[1][0] = 1] and writes [1 + 0.5 * (2 + 0.5 * 1 - 1) = 1.75]. *)
Example learn_skewed_q_learning :
  bind (learn (Examples.learner_skewed "q_learning") 4) (fun l => Ok (Q l, r l))
  = Ok ([[2.25; 1]; [1; 3]]%float, Some 4%float).
Proof. vm_compute. reflexivity. Qed.

Example learn_skewed_sarsa :
  bind (learn (Examples.learner_skewed "sarsa") 4) (fun l => Ok (Q l, r l))
  = Ok ([[1.75; 1]; [1; 3]]%float, Some 4%float).
Proof. vm_compute. reflexivity. Qed.

(** C6. From a learner with an empty buffer, when the calls
    [get_action(x0)], [learn(r0)], [get_action(x1)], [learn(r1)] return the
    actions [act0] and [act1], the table afterwards is the initial one with
    the entry [Q[x0][act0]] replaced by
    [q0 + alpha * (r0 + gamma * q1 - q0)], where [q0 = Q[x0][act0]] and
    [q1 = Q[x1][target]] are read in the initial table: the backup uses the
    reward [r0] of the first [learn], and [r1] is only stored. *)
Theorem td_update_lag (self : TdLearner.t) (x0 : Z) (r0 : float) (x1 : Z)
    (r1 : float) (g : rng) (act0 act1 : Z) (self4 : TdLearner.t) :
  fresh self ->
  two_steps self x0 r0 x1 r1 g = Ok (act0, act1, self4) ->
  exists target q1 q0 i row j,
    bootstrap_target (update self) (Q self) (Some x1) (Some act1) target q1 /\
    index_pos (length (Q self)) x0 = Some i /\
    Q self !! i = Some row /\
    index_pos (length row) act0 = Some j /\
    row !! j = Some q0 /\
    Q self4 = with_entry (Q self) i j (td_backup (alpha self) (gamma self) q0 r0 q1) /\
    Q_get (Q self4) (Some x0) (Some act0)
    = Ok (td_backup (alpha self) (gamma self) q0 r0 q1) /\
    r self4 = Some r1.
Proof.
  intros (Hs0 & _ & _ & Hs1 & _) Hrun. unfold two_steps in Hrun.
  inv_bind Hrun. destruct x as [[a self1] g1]. cbn [fst snd] in Hrun.
  apply get_action_Ok in E as ->.
  rewrite learn_first_call in Hrun by exact Hs1. cbn [bind] in Hrun.
  inv_bind Hrun. destruct x as [[a' self3] g3]. cbn [fst snd] in Hrun.
  apply get_action_Ok in E as ->.
  inv_bind Hrun. rename x into self'. injection Hrun as <- <- <-.
  apply (learn_backup_entry _ r1 x0) in E; [|reflexivity].
  destruct E as (target & q1 & rr & q0 & a0' & i & row & j
                 & Ht & [= <-] & [= <-] & Hi & Hrow & Hj & Hq0 & HQ & Hback & Hr).
  exists target, q1, q0, i, row, j. cbn in *. repeat split; assumption.
Qed.

(** A learner built by [__init__] over [flexible], with [r0 = 2] and
    [r1 = 4]. *)
Lemma td_update_lag_witness :
  __init__ Examples.flexible "sarsa" 0.125 0.5
  = Ok (Examples.learner Examples.flexible "sarsa") /\
  exists self4,
    two_steps (Examples.learner Examples.flexible "sarsa") 0 2 1 4 Examples.rng0
    = Ok (0, 0, self4) /\
    exists target q1 q0 i row j,
      bootstrap_target "sarsa" [[1; 1]; [1; 1]]%float (Some 1) (Some 0) target q1 /\
      index_pos 2 0 = Some i /\
      [[1; 1]; [1; 1]]%float !! i = Some row /\
      index_pos (length row) 0 = Some j /\
      row !! j = Some q0 /\
      Q self4 = with_entry [[1; 1]; [1; 1]]%float i j (td_backup 0.5 0.5 q0 2 q1) /\
      Q_get (Q self4) (Some 0) (Some 0) = Ok (td_backup 0.5 0.5 q0 2 q1) /\
      r self4 = Some 4%float.
Proof.
  split; [reflexivity|].
  eexists. split; [vm_compute; reflexivity|].
  apply (td_update_lag (Examples.learner Examples.flexible "sarsa") 0 2 1 4
           Examples.rng0 0 0).
  - repeat split.
  - vm_compute. reflexivity.
Defined.

(** The same run, evaluated: [Q[0][0]] becomes
    [1 + 0.5 * (2 + 0.5 * 1 - 1) = 1.75]; with the reward 4 of the second
    [learn] it would be 2.75. *)
Example two_steps_flexible :
  bind (__init__ Examples.flexible "sarsa" 0.125 0.5) (fun self =>
  bind (two_steps self 0 2 1 4 Examples.rng0) (fun c => Ok (Q (snd c), r (snd c))))
  = Ok ([[1.75; 1]; [1; 1]]%float, Some 4%float).
Proof. vm_compute. reflexivity. Qed.

End Learner_backup_claims.
